(** * POIDH control panel: the CLI shim and the two GUI front ends

    A shallow embedding of the parts of [gui/cli.py], [gui/main.py] and
    [gui/poidh_gui.py] that launch the worker process, stream its output,
    tail the log files and print the audit trail and the configuration.

    Conventions of the embedding:
    - a Python [str] is a [string]; one [ascii] stands for one character;
    - a Python [int] is a [Z]; list indices after clamping are [nat];
    - the value returned by [json.load] is a [pyval]; the JSON parser, the
      file system and the operating system are the environment, and their
      answers are arguments of the embedded functions;
    - [print] appends one line to the list of printed lines;
    - a Qt signal emission is an [event] in the trace of the emitting thread. *)

From Stdlib Require Import ZArith Lia List String Ascii Bool.
From stdpp Require Import base tactics option list gmap strings pretty.

Set Warnings "-register-all".

Open Scope string_scope.
Open Scope list_scope.
Open Scope Z_scope.

(** ** Python sequences *)

Module Py.

(** [seq[start:]]: a negative [start] counts from the end, and both ends are
    clamped to the sequence. *)
Definition slice_start (start : Z) (len : nat) : nat :=
  Z.to_nat (if start <? 0 then Z.max (start + Z.of_nat len) 0
            else Z.min start (Z.of_nat len)).

Definition slice_from {A} (start : Z) (l : list A) : list A :=
  drop (slice_start start (length l)) l.

(** [seq[:stop]] for a literal, non-negative [stop]. *)
Definition slice_to {A} (stop : nat) (l : list A) : list A := take stop l.

(** The same two slices on [str]. *)
Definition str_slice_from (start : Z) (s : string) : string :=
  string_of_list_ascii (slice_from start (list_ascii_of_string s)).

Definition str_slice_to (stop : nat) (s : string) : string :=
  String.substring 0 stop s.

(** [sub in s] on [str]. *)
Fixpoint contains (sub s : string) : bool :=
  String.prefix sub s ||
  match s with
  | EmptyString => false
  | String _ s' => contains sub s'
  end.

(** [str.isspace] on one character below 256: TAB, LF, VT, FF, CR, the four
    separators FS..US, the space, NEL (133) and the no-break space (160). *)
Definition isspace (c : ascii) : bool :=
  let n := nat_of_ascii c in
  ((9 <=? n) && (n <=? 13) || (28 <=? n) && (n <=? 32)
   || (n =? 133) || (n =? 160))%nat.

Fixpoint lstrip (s : string) : string :=
  match s with
  | EmptyString => EmptyString
  | String c s' => if isspace c then lstrip s' else s
  end.

(** [str.rstrip()]: the string without its trailing run of whitespace. *)
Fixpoint rstrip (s : string) : string :=
  match s with
  | EmptyString => EmptyString
  | String c s' =>
      match rstrip s' with
      | EmptyString => if isspace c then EmptyString else String c EmptyString
      | r => String c r
      end
  end.

Definition strip (s : string) : string := lstrip (rstrip s).

(** [sep.join(parts)]. *)
Definition join (sep : string) (parts : list string) : string :=
  String.concat sep parts.

(** [s * n] for a [str] [s]. *)
Fixpoint repeat_str (s : string) (n : nat) : string :=
  match n with
  | O => EmptyString
  | S n' => s +:+ repeat_str s n'
  end.

(** [f"{s:25}"]: left-justified in a field of the given width. *)
Definition ljust (width : nat) (s : string) : string :=
  s +:+ repeat_str " " (width - String.length s).

(** Lines of a text as a text-mode file object yields them
    ([readline], [readlines], iteration): each line keeps its terminating
    newline; a last line without one is yielded as it is. The text is what
    the file object decodes, after newline translation. *)
Fixpoint lines_from (cur : string) (s : string) : list string :=
  match s with
  | EmptyString =>
      match cur with
      | EmptyString => []
      | _ => [cur]
      end
  | String c s' =>
      if Ascii.eqb c "010"%char
      then (cur +:+ String c EmptyString) :: lines_from EmptyString s'
      else lines_from (cur +:+ String c EmptyString) s'
  end.

Definition readlines (s : string) : list string := lines_from EmptyString s.

(** The newline character as a one-character [str]. *)
Definition LF : string := String "010"%char EmptyString.

End Py.


(** ** Decoded JSON values, exceptions and printing *)

(** What [json.load] returns. A [dict] is kept as an association list read
    by its first binding of a key (the decoder has already resolved
    duplicate keys of the document). *)
Inductive pyval : Type :=
| PNone
| PBool (b : bool)
| PInt (n : Z)
| PFloat (mantissa exponent : Z)
| PStr (s : string)
| PList (l : list pyval)
| PDict (d : list (string * pyval)).

(** The exceptions the embedded code can meet. [OSError] and [DecodeError]
    come from the environment ([open], [json.load], [Popen]); the other two
    are raised by an operation on a value of the wrong type. [TypeError]
    also stands for what subscripting a [dict] with a slice raises, whose
    class depends on the interpreter version. *)
Inductive exn : Type :=
| OSError (msg : string)
| DecodeError (msg : string)
| AttributeError (on : pyval) (attr : string)
| TypeError (on : pyval).

(** [str()] of the interpreter on what the code formats but the embedding
    does not spell out: values other than [str] (number formatting, [repr]
    quoting inside containers) and exception messages. *)
Class Runtime := {
  str_other : pyval -> string;
  str_exn : exn -> string
}.

Definition py_str {rt : Runtime} (v : pyval) : string :=
  match v with
  | PStr s => s
  | _ => str_other v
  end.

Module Json.

Fixpoint assoc (key : string) (d : list (string * pyval)) : option pyval :=
  match d with
  | [] => None
  | (k, v) :: d' => if String.eqb k key then Some v else assoc key d'
  end.

(** [v.get(key, default)]: only a [dict] has the method. *)
Definition get (v : pyval) (key : string) (dflt : pyval) : exn + pyval :=
  match v with
  | PDict d => inr (default dflt (assoc key d))
  | _ => inl (AttributeError v "get")
  end.

(** [v[start:]] and [v[:stop]]: a [list] and a [str] can be sliced. *)
Definition slice_from (start : Z) (v : pyval) : exn + pyval :=
  match v with
  | PList l => inr (PList (Py.slice_from start l))
  | PStr s => inr (PStr (Py.str_slice_from start s))
  | _ => inl (TypeError v)
  end.

Definition slice_to (stop : nat) (v : pyval) : exn + pyval :=
  match v with
  | PList l => inr (PList (Py.slice_to stop l))
  | PStr s => inr (PStr (Py.str_slice_to stop s))
  | _ => inl (TypeError v)
  end.

(** The items a [for] loop draws from a value: the elements of a [list],
    the characters of a [str], the keys of a [dict]. *)
Definition items (v : pyval) : exn + list pyval :=
  match v with
  | PList l => inr l
  | PStr s => inr (map (fun c => PStr (String c EmptyString)) (list_ascii_of_string s))
  | PDict d => inr (map (fun kv => PStr (fst kv)) d)
  | _ => inl (TypeError v)
  end.

(** [len(v)] where [v] is the result of a slice. *)
Definition len (v : pyval) : exn + nat :=
  match v with
  | PList l => inr (length l)
  | PStr s => inr (String.length s)
  | PDict d => inr (length d)
  | _ => inl (TypeError v)
  end.

Definition is_str (v : pyval) (s : string) : bool :=
  match v with
  | PStr s' => String.eqb s' s
  | _ => false
  end.

(** [word in v] for a [str] [word]: a substring test on a [str], membership
    among the elements of a [list], among the keys of a [dict]. *)
Definition str_in (word : string) (v : pyval) : exn + bool :=
  match v with
  | PStr s => inr (Py.contains word s)
  | PList l => inr (existsb (fun x => is_str x word) l)
  | PDict d => inr (existsb (fun kv => String.eqb (fst kv) word) d)
  | _ => inl (TypeError v)
  end.

End Json.

(** ** Printing and exceptions

    A computation that prints lines and then either returns or raises: the
    lines printed before an exception stay printed. *)

Module IO.

Definition t (A : Type) : Type := (list string * (exn + A))%type.

Definition ret {A} (a : A) : t A := ([], inr a).

Definition print (line : string) : t unit := ([line], inr tt).

Definition lift {A} (r : exn + A) : t A := ([], r).

Definition bind {A B} (m : t A) (k : A -> t B) : t B :=
  match m with
  | (out, inl e) => (out, inl e)
  | (out, inr a) => let '(out', r) := k a in (out ++ out', r)
  end.

(** [try: m  except Exception as e: h e]. *)
Definition catch {A} (m : t A) (h : exn -> t A) : t A :=
  match m with
  | (out, inl e) => let '(out', r) := h e in (out ++ out', r)
  | (out, inr a) => (out, inr a)
  end.

(** [for x in l: body x]. *)
Fixpoint for_each {A} (body : A -> t unit) (l : list A) : t unit :=
  match l with
  | [] => ret tt
  | x :: l' => bind (body x) (fun _ => for_each body l')
  end.

End IO.

#[global] Instance io_ret : MRet IO.t := @IO.ret.
#[global] Instance io_bind : MBind IO.t := fun A B k m => IO.bind m k.

(** ** gui/cli.py *)

(** What a reader finds at [logs/audit-trail.json]: [exists()] itself fails
    (it passes on errors such as a [logs] directory that may not be
    searched), there is no file, there is a file that [open] refuses, a file
    [json.load] rejects, or a decoded document. *)
Inductive json_file : Type :=
| Absent
| Unopenable (e : exn)
| Unparsable (e : exn)
| Holds (data : pyval)
| Unsearchable (e : exn).

Module Cli.

(** [with open(audit_file) as f: data = json.load(f)]. *)
Definition load (f : json_file) : IO.t pyval :=
  match f with
  | Absent => IO.lift (inl (OSError "No such file or directory"))
  | Unopenable e => IO.lift (inl e)
  | Unparsable e => IO.lift (inl e)
  | Holds data => IO.ret data
  | Unsearchable e => IO.lift (inl e)
  end.

Definition audit_header (limit : Z) : string :=
  "📋 Audit Trail (Last " +:+ pretty limit +:+ " entries):".

(** [data.get('entries', [])[-limit:]]. *)
Definition last_entries (limit : Z) (data : pyval) : exn + pyval :=
  match Json.get data "entries" (PList []) with
  | inl e => inl e
  | inr all => Json.slice_from (- limit) all
  end.

(** The body of the loop of [audit_show]. *)
Definition show_entry {rt : Runtime} (entry : pyval) : IO.t unit :=
  t ← IO.lift (Json.get entry "timestamp" (PStr "?"));
  ts ← IO.lift (Json.slice_to 19 t);
  action ← IO.lift (Json.get entry "action" (PStr "?"));
  IO.print ("[" +:+ py_str ts +:+ "] " +:+ py_str action).

(** [POIDHCLI.audit_show]: the printed lines, and the return code or the
    exception that leaves the method. [audit_file.exists()] is evaluated
    before the [try]. *)
Definition audit_show {rt : Runtime} (limit : Z) (f : json_file) : IO.t Z :=
  match f with
  | Unsearchable e => IO.lift (inl e)
  | Absent => (["❌ No audit trail found"], inr 1)
  | _ =>
      IO.catch
        (data ← load f;
         IO.print (audit_header limit);;
         IO.print (Py.repeat_str "─" 80);;
         entries ← IO.lift (last_entries limit data);
         each ← IO.lift (Json.items entries);
         IO.for_each show_entry each;;
         IO.ret 0)
        (fun e => IO.print ("❌ Error: " +:+ str_exn e);; IO.ret 1)
  end.

(** The keys [config_show] lists, in its order. *)
Definition config_keys : list string :=
  [ "CHAIN_ID"; "BOT_PRIVATE_KEY"; "BASE_RPC_URL"; "OPENAI_API_KEY";
    "POLLING_INTERVAL"; "MAX_GAS_PRICE_GWEI"; "AUTO_APPROVE_GAS" ].

Definition not_set : string := "(not set)".

(** [os.getenv(key, '(not set)')] on the process environment. *)
Definition getenv (env : gmap string string) (key dflt : string) : string :=
  default dflt (env !! key).

Definition is_secret (key : string) : bool :=
  Py.contains "KEY" key || Py.contains "PRIVATE" key.

(** [value[:4] + '...' if value != '(not set)' else value]. *)
Definition mask (value : string) : string :=
  if negb (String.eqb value not_set)
  then Py.str_slice_to 4 value +:+ "..."
  else value.

(** One turn of the loop of [config_show]: the line printed for [key]. *)
Definition config_line (env : gmap string string) (key : string) : string :=
  let value := getenv env key not_set in
  let value := if is_secret key then mask value else value in
  Py.ljust 25 key +:+ " " +:+ value.

(** [POIDHCLI.config_show]: the printed lines and the return code. *)
Definition config_show (env : gmap string string) : list string * Z :=
  ([ "⚙️  Current Configuration:"; Py.repeat_str "─" 50 ]
     ++ map (config_line env) config_keys, 0).

(** A float as [argparse] hands it over ([type=float]): its mantissa and
    binary exponent; it is zero, and false in a condition, when the mantissa
    is. *)
Definition float_true (x : Z * Z) : bool := negb (fst x =? 0).

(** The command [bounty_launch] builds: [if reward:] adds the reward only
    when one was given and it is not zero. *)
Definition bounty_command {rt : Runtime} (bounty_type : string) (reward : option (Z * Z))
  : string :=
  let cmd := "npm run agent " +:+ bounty_type in
  match reward with
  | Some x =>
      if float_true x
      then cmd +:+ " -- --reward " +:+ py_str (PFloat (fst x) (snd x))
      else cmd
  | None => cmd
  end.

(** What [subprocess.run] answers in [bounty_launch]. *)
Inductive run_result : Type :=
| Exits (returncode : Z)
| TimeoutExpired
| RunFails (e : exn).

(** [POIDHCLI.bounty_launch]: the printed lines and the return code. *)
Definition bounty_launch {rt : Runtime} (bounty_type : string) (reward : option (Z * Z))
    (r : run_result) : list string * Z :=
  let banner := [ "🚀 Launching: " +:+ bounty_command bounty_type reward;
                  Py.repeat_str "─" 50 ] in
  match r with
  | Exits code => (banner, code)
  | TimeoutExpired => (banner ++ ["⏱️  Timeout"], 1)
  | RunFails e => (banner ++ ["❌ Error: " +:+ str_exn e], 1)
  end.

End Cli.

(** ** gui/main.py *)

Module MainGui.

(** The child process as [ProcessManager.run] sees it: a child that runs to
    its exit, with the text it writes to each of its two pipes before
    closing them, and its exit code. The pipes deliver their text without
    read errors; standard error, which is read only after the exit, stays
    within what its pipe holds. *)
Record child : Type := {
  stdout : string;
  stderr : string;
  returncode : Z
}.

(** What [subprocess.Popen] answers. *)
Inductive spawn : Type :=
| SpawnFails (e : exn)
| Spawns (p : child).

(** The three signals of [ProcessManager]; [finished_signal] is declared
    [pyqtSignal()] and carries nothing. *)
Inductive event : Type :=
| Output (text : string)
| Error (text : string)
| Finished.

(** [ProcessManager.run]: the signals emitted, in order. *)
Definition run {rt : Runtime} (s : spawn) : list event :=
  match s with
  | SpawnFails e => [Error (str_exn e); Finished]
  | Spawns p =>
      map (fun line => Output (Py.strip line)) (Py.readlines (stdout p))
      ++ (if negb (returncode p =? 0)
          then if negb (String.eqb (stderr p) "") then [Error (stderr p)] else []
          else [])
      ++ [Finished]
  end.

(** A started [ProcessManager] thread. *)
Record thread : Type := {
  command : list string;
  finished : bool
}.

(** [AgentTab]: the paragraphs of [output_text] and the thread that
    [process_manager] refers to, by its position among the started ones. *)
Record agent_tab : Type := {
  output_text : list string;
  process_manager : option nat
}.

(** The tab with every thread it has started; a thread the tab no longer
    refers to stays in the table (what Qt does to a thread object that is
    dropped while running is outside the embedding). *)
Record world : Type := {
  tab : agent_tab;
  threads : list thread
}.

Definition initial : world :=
  {| tab := {| output_text := []; process_manager := None |}; threads := [] |}.

(** [AgentTab.run_npm_command]; it returns [None]. *)
Definition run_npm_command (cmd : list string) (w : world) : world :=
  {| tab := {| output_text := ["Running: " +:+ Py.join " " cmd +:+ "..." +:+ Py.LF];
               process_manager := Some (length (threads w)) |};
     threads := threads w ++ [{| command := cmd; finished := false |}] |}.

(** [AgentTab.create_bounty] and [AgentTab.start_monitor]. *)
Definition clear_output (w : world) : world :=
  {| tab := {| output_text := []; process_manager := process_manager (tab w) |};
     threads := threads w |}.

Definition create_bounty (cmd : string) (w : world) : world :=
  run_npm_command ["npm"; "run"; cmd] (clear_output w).

Definition start_monitor (w : world) : world :=
  run_npm_command ["npm"; "run"; "agent:monitor"] (clear_output w).

(** The slots the three signals are connected to: [append_output],
    [append_error] and [on_process_finished]. *)
Definition deliver (t : agent_tab) (ev : event) : agent_tab :=
  let line :=
    match ev with
    | Output text => text
    | Error text => "❌ Error: " +:+ text
    | Finished => Py.LF +:+ "✅ Process completed."
    end in
  {| output_text := output_text t ++ [line]; process_manager := process_manager t |}.

Definition mark_finished (th : thread) : thread :=
  {| command := command th; finished := true |}.

(** Thread [i] runs to its end against the answer [s] of the operating
    system, and the tab receives its signals. *)
Definition thread_runs {rt : Runtime} (i : nat) (s : spawn) (w : world) : world :=
  match threads w !! i with
  | Some th =>
      if finished th then w
      else {| tab := foldl deliver (tab w) (run s);
              threads := <[i := mark_finished th]> (threads w) |}
  | None => w
  end.

(** The threads that have not emitted [finished_signal] yet. *)
Definition non_terminal (w : world) : nat :=
  length (List.filter (fun th => negb (finished th)) (threads w)).

(** User actions and thread completions, and their effect in sequence. *)
Inductive step : Type :=
| Launch (cmd : list string)
| Completes (i : nat) (s : spawn).

Definition exec {rt : Runtime} (w : world) (st : step) : world :=
  match st with
  | Launch cmd => run_npm_command cmd w
  | Completes i s => thread_runs i s w
  end.

Definition is_launch (st : step) : bool :=
  match st with
  | Launch _ => true
  | Completes _ _ => false
  end.

Definition launches (steps : list step) : nat :=
  length (List.filter is_launch steps).

(** A text file as [DashboardTab.refresh_logs] finds it. *)
Inductive text_file : Type :=
| NoFile
| Unreadable (e : exn)
| Text (content : string).

(** The two read-only text panes of [DashboardTab]. *)
Record dashboard : Type := {
  logs_text : string;
  audit_text : string
}.

(** [''.join(f.readlines()[-n:])]. *)
Definition last_lines (n : Z) (content : string) : list string :=
  Py.slice_from (- n) (Py.readlines content).

Definition tail_text (n : Z) (content : string) : string :=
  Py.join "" (last_lines n content).

(** [DashboardTab.refresh_logs]. *)
Definition refresh_logs {rt : Runtime} (bot_log audit_log : text_file) (d : dashboard) : dashboard :=
  let failed e :=
    fun d' : dashboard =>
      {| logs_text := "Error reading logs: " +:+ str_exn e; audit_text := audit_text d' |} in
  match bot_log with
  | Unreadable e => failed e d
  | _ =>
      let d1 :=
        match bot_log with
        | Text content => {| logs_text := tail_text 50 content; audit_text := audit_text d |}
        | _ => d
        end in
      match audit_log with
      | NoFile => d1
      | Unreadable e => failed e d1
      | Text content => {| logs_text := logs_text d1; audit_text := tail_text 30 content |}
      end
  end.

(** The dictionary [ConfigManager.save_config] receives, in its order. *)
Definition env_text (config : list (string * string)) : string :=
  Py.join ""
    (map (fun kv => fst kv +:+ "=" +:+ snd kv +:+ Py.LF)
         (List.filter (fun kv => negb (String.eqb (snd kv) "")) config)).

(** [ConfigManager.save_config]: the [.env] file ([None]: there is none)
    after the call, and the result. [refused] is the exception of [open]
    when the file cannot be opened for writing. *)
Definition save_config (config : list (string * string)) (refused : option exn)
    (file : option string) : option string * bool :=
  match refused with
  | Some _ => (file, false)
  | None => (Some (env_text config), true)
  end.

(** The widgets [ConfigTab.save_config] reads. *)
Record config_form : Type := {
  supported_chains : string;
  base_rpc : string;
  arbitrum_rpc : string;
  degen_rpc : string;
  openai_key : string;
  openai_model : string;
  polling_interval : Z;
  max_gas_price : Z * Z;
  stream_port : Z;
  log_level : string;
  demo_mode : bool
}.

(** The dictionary [ConfigTab.save_config] builds. *)
Definition form_config {rt : Runtime} (f : config_form) : list (string * string) :=
  [ ("SUPPORTED_CHAINS", supported_chains f);
    ("BASE_RPC_URL", base_rpc f);
    ("ARBITRUM_RPC_URL", arbitrum_rpc f);
    ("DEGEN_RPC_URL", degen_rpc f);
    ("OPENAI_API_KEY", openai_key f);
    ("OPENAI_VISION_MODEL", openai_model f);
    ("POLLING_INTERVAL", pretty (polling_interval f));
    ("MAX_GAS_PRICE_GWEI", py_str (PFloat (fst (max_gas_price f)) (snd (max_gas_price f))));
    ("STREAMING_PORT", pretty (stream_port f));
    ("LOG_LEVEL", log_level f);
    ("DEMO_MODE", if demo_mode f then "true" else "false") ].

(** The two message boxes of [ConfigTab.save_config]. *)
Inductive message : Type := SavedBox | FailedBox.

(** [ConfigTab.save_config]: the [.env] file after the call and the box shown. *)
Definition config_tab_save {rt : Runtime} (f : config_form) (refused : option exn)
    (file : option string) : option string * message :=
  let '(file', ok) := save_config (form_config f) refused file in
  (file', if ok then SavedBox else FailedBox).

End MainGui.

(** ** gui/poidh_gui.py *)

Module PoidhGui.

(** The child process as [ProcessManager.run] sees it. It is started with
    [stderr=subprocess.STDOUT]: the operating system puts both streams into
    one pipe, and [output] is the text that pipe carries before it closes. *)
Record child : Type := {
  output : string;
  returncode : Z
}.

Inductive spawn : Type :=
| SpawnFails (e : exn)
| Spawns (p : child).

(** The three signals of [ProcessManager]; [finished_signal] is declared
    [pyqtSignal(int)]. *)
Inductive event : Type :=
| Output (text : string)
| Error (text : string)
| Finished (code : Z).

(** [ProcessManager.run]: the signals emitted, in order. [stopped_at] is the
    number of lines read before [stop] cleared [self.running], if it did:
    the loop leaves at the next line. *)
Definition run {rt : Runtime} (stopped_at : option nat) (s : spawn) : list event :=
  match s with
  | SpawnFails e => [Error ("Error: " +:+ str_exn e); Finished (-1)]
  | Spawns p =>
      let lines := Py.readlines (output p) in
      let read :=
        match stopped_at with
        | Some n => take n lines
        | None => lines
        end in
      map (fun line => Output (Py.rstrip line))
          (List.filter (fun line => negb (String.eqb line "")) read)
      ++ [Finished (returncode p)]
  end.

(** How the child answers [stop]: whether the operating system accepts a
    signal for it, and how many milliseconds after the termination signal it
    exits by itself ([None]: it does not). *)
Record reaction : Type := {
  accepts_signals : bool;
  exits_after : option N
}.

(** The calls [stop] makes on [self.process]. *)
Inductive call : Type :=
| Terminate
| Wait (timeout_s : N)
| Kill.

(** The fields of [ProcessManager] that [stop] reads and writes. *)
Record process_manager : Type := {
  running : bool;
  process : option reaction
}.

(** [Popen.wait(timeout)]: the time at which it returns, or [None] when it
    raises [TimeoutExpired], which it does [timeout] seconds after the call. *)
Definition wait (r : reaction) (timeout_s : N) : option N :=
  match exits_after r with
  | Some d => if (d <=? timeout_s * 1000)%N then Some d else None
  | None => None
  end.

(** [ProcessManager.stop]: the new state and the calls made, each with the
    time of the call in milliseconds since [stop] was entered. *)
Definition stop (pm : process_manager) : process_manager * list (N * call) :=
  let pm' := {| running := false; process := process pm |} in
  match process pm with
  | None => (pm', [])
  | Some r =>
      if accepts_signals r then
        match wait r 5 with
        | Some _ => (pm', [(0, Terminate); (0, Wait 5)])
        | None => (pm', [(0, Terminate); (0, Wait 5); (5 * 1000, Kill)])
        end
      else (pm', [(0, Terminate); (0, Kill)])
  end%N.

(** The time of the [Kill] call in a trace, if there is one. *)
Fixpoint killed_at (trace : list (N * call)) : option N :=
  match trace with
  | [] => None
  | (t, Kill) :: _ => Some t
  | _ :: rest => killed_at rest
  end.

(** When the child is gone: at its own exit, or at the forced kill if that
    comes first. *)
Definition gone_at (r : reaction) (trace : list (N * call)) : option N :=
  match exits_after r, killed_at trace with
  | Some d, Some k => Some (N.min d k)
  | Some d, None => Some d
  | None, Some k => Some k
  | None, None => None
  end.

(** The form of [BountyTab] as [launch_bounty] reads it; the override amount
    is kept as the text [str()] gives for the spin box value. *)
Record form : Type := {
  template : string;
  use_override : bool;
  override_reward : string
}.

Record thread : Type := {
  command : string;
  finished : bool
}.

(** [BountyTab]: the paragraphs of [log] and the thread [self.process]
    refers to, by its position among the started ones. *)
Record bounty_tab : Type := {
  log : list string;
  current : option nat
}.

Record world : Type := {
  tab : bounty_tab;
  threads : list thread
}.

Definition initial : world :=
  {| tab := {| log := []; current := None |}; threads := [] |}.

Definition bounty_command (f : form) : string :=
  let reward := if use_override f then " -- --reward " +:+ override_reward f else "" in
  "npm run agent " +:+ template f +:+ reward.

(** [BountyTab.launch_bounty]; it returns [None]. *)
Definition launch_bounty (f : form) (w : world) : world :=
  let cmd := bounty_command f in
  {| tab := {| log := ["🚀 Launching: " +:+ cmd; Py.repeat_str "-" 60];
               current := Some (length (threads w)) |};
     threads := threads w ++ [{| command := cmd; finished := false |}] |}.

(** [BountyTab.on_process_finished]: the paragraph it logs. *)
Definition on_process_finished (code : Z) : string :=
  let status := if code =? 0 then "✅ Success"
                else "❌ Failed (code " +:+ pretty code +:+ ")" in
  Py.LF +:+ status.

(** The slots the three signals are connected to: [log_message],
    [log_error] and [on_process_finished]. *)
Definition deliver (t : bounty_tab) (ev : event) : bounty_tab :=
  let line :=
    match ev with
    | Output text => text
    | Error text => "❌ " +:+ text
    | Finished code => on_process_finished code
    end in
  {| log := log t ++ [line]; current := current t |}.

Definition mark_finished (th : thread) : thread :=
  {| command := command th; finished := true |}.

(** Thread [i] runs to its end against the answer [s] of the operating
    system, and the tab receives its signals. *)
Definition thread_runs {rt : Runtime} (i : nat) (stopped_at : option nat) (s : spawn)
    (w : world) : world :=
  match threads w !! i with
  | Some th =>
      if finished th then w
      else {| tab := foldl deliver (tab w) (run stopped_at s);
              threads := <[i := mark_finished th]> (threads w) |}
  | None => w
  end.

Definition non_terminal (w : world) : nat :=
  length (List.filter (fun th => negb (finished th)) (threads w)).

(** The colours [MonitorTab.refresh_logs] gives to an item. *)
Inductive colour : Type := Red | Green.

Record item : Type := {
  text : string;
  foreground : option colour
}.

(** [MonitorTab]: the status label and the rows of [log_list]. *)
Record monitor : Type := {
  status_label : string;
  log_list : list item
}.

Definition offline (m : monitor) : monitor :=
  {| status_label := "🔴 Offline"; log_list := log_list m |}.

Definition online (m : monitor) : monitor :=
  {| status_label := "🟢 Online"; log_list := log_list m |}.

(** The body of the loop of [refresh_logs]: the row made from one entry. *)
Definition make_item {rt : Runtime} (entry : pyval) : exn + item :=
  match Json.get entry "timestamp" (PStr "?"), Json.get entry "action" (PStr "?"),
        Json.get entry "action" (PStr "") with
  | inr ts, inr action, inr tag =>
      let msg := "[" +:+ py_str ts +:+ "] " +:+ py_str action in
      match Json.str_in "ERROR" tag with
      | inl e => inl e
      | inr true => inr {| text := msg; foreground := Some Red |}
      | inr false =>
          match Json.str_in "SUCCESS" tag with
          | inl e => inl e
          | inr true => inr {| text := msg; foreground := Some Green |}
          | inr false => inr {| text := msg; foreground := None |}
          end
      end
  | inl e, _, _ => inl e
  | _, inl e, _ => inl e
  | _, _, inl e => inl e
  end.

(** The loop of [refresh_logs]: rows are added one by one, and the rows
    added before an exception stay. *)
Fixpoint add_items {rt : Runtime} (entries : list pyval) (rows : list item)
  : list item * option exn :=
  match entries with
  | [] => (rows, None)
  | entry :: rest =>
      match make_item entry with
      | inl e => (rows, Some e)
      | inr it => add_items rest (rows ++ [it])
      end
  end.

(** [data.get('entries', [])[-20:]], then the part of it from position
    [count] on when [count < len(entries)]. *)
Definition fresh_entries (count : nat) (data : pyval) : exn + list pyval :=
  match Json.get data "entries" (PList []) with
  | inl e => inl e
  | inr all =>
      match Json.slice_from (-20) all with
      | inl e => inl e
      | inr entries =>
          match Json.len entries with
          | inl e => inl e
          | inr n =>
              if (count <? n)%nat then
                match Json.slice_from (Z.of_nat count) entries with
                | inl e => inl e
                | inr rest => Json.items rest
                end
              else inr []
          end
      end
  end.

(** [MonitorTab.refresh_logs]; [audit_file.exists()] is evaluated inside the
    [try], and the bare [except] catches every exception. *)
Definition refresh_logs {rt : Runtime} (f : json_file) (m : monitor) : monitor :=
  match f with
  | Absent => m
  | Unopenable _ | Unparsable _ | Unsearchable _ => offline m
  | Holds data =>
      match fresh_entries (length (log_list m)) data with
      | inl _ => offline m
      | inr new =>
          match add_items new (log_list m) with
          | (rows, Some _) => offline {| status_label := status_label m; log_list := rows |}
          | (rows, None) => online {| status_label := status_label m; log_list := rows |}
          end
      end
  end.

End PoidhGui.

(** ** gui/setup.py *)

Module Setup.

(** What [subprocess.run] answers to [run_cmd]. *)
Inductive outcome : Type :=
| Completed (returncode : Z) (stderr : string)
| TimedOut
| Raised (e : exn).

(** [run_cmd]: the printed lines and the result. *)
Definition run_cmd {rt : Runtime} (cmd : string) (check : bool) (o : outcome)
  : list string * bool :=
  match o with
  | Completed code err =>
      if check && negb (code =? 0)
      then (["❌ Command failed: " +:+ cmd; err], false)
      else ([], true)
  | TimedOut => (["⏱️  Timeout: " +:+ cmd], false)
  | Raised e => (["❌ Error: " +:+ str_exn e], false)
  end.

(** The machine the script runs on: the answer of the shell to each command,
    [sys.version_info], and the two paths the script looks for. *)
Record host : Type := {
  sh : string -> outcome;
  version : Z * Z * Z;
  has_node_modules : bool;
  req_file : string;
  has_requirements : bool
}.

(** [check_python]. *)
Definition check_python (h : host) : list string * bool :=
  let '(major, minor, micro) := version h in
  if (major <? 3) || ((major =? 3) && (minor <? 8))
  then ([ "📦 Checking Python version...";
          "❌ Python 3.8+ required (found " +:+ pretty major +:+ "." +:+ pretty minor +:+ ")" ],
        false)
  else ([ "📦 Checking Python version...";
          "✅ Python " +:+ pretty major +:+ "." +:+ pretty minor +:+ "." +:+ pretty micro ],
        true).

(** [check_nodejs]. *)
Definition check_nodejs {rt : Runtime} (h : host) : list string * bool :=
  let start := ["📦 Checking Node.js..."] in
  let '(out1, ok1) := run_cmd "node --version" false (sh h "node --version") in
  if negb ok1
  then (start ++ out1 ++ ["❌ Node.js not found. Install from https://nodejs.org/"], false)
  else
    let '(out2, ok2) := run_cmd "npm --version" false (sh h "npm --version") in
    if negb ok2
    then (start ++ out1 ++ out2 ++ ["❌ npm not found"], false)
    else (start ++ out1 ++ out2 ++ ["✅ Node.js and npm installed"], true).

(** [check_dependencies]. *)
Definition check_dependencies {rt : Runtime} (h : host) : list string * bool :=
  let start := ["📦 Checking dependencies..."] in
  if negb (has_node_modules h) then
    let '(out, ok) := run_cmd "npm install" true (sh h "npm install") in
    let tried := start ++ ["⚠️  npm dependencies not installed. Installing..."] ++ out in
    if negb ok then (tried, false)
    else (tried ++ ["✅ npm dependencies installed"], true)
  else (start ++ ["✅ npm dependencies found"], true).

(** The four commands of [install_python_deps]. *)
Definition pip_system (h : host) : string :=
  "pip install -r " +:+ req_file h +:+ " --break-system-packages".
Definition pip_user (h : host) : string :=
  "pip install -r " +:+ req_file h +:+ " --user".
Definition make_venv : string := "python3 -m venv gui/venv".
Definition pip_venv (h : host) : string :=
  "gui/venv/bin/pip install -r " +:+ req_file h.

(** [install_python_deps]. *)
Definition install_python_deps {rt : Runtime} (h : host) : list string * bool :=
  let start := ["📦 Installing Python dependencies..."] in
  if negb (has_requirements h) then (start ++ ["❌ " +:+ req_file h +:+ " not found"], false)
  else
    let '(out1, ok1) := run_cmd (pip_system h) false (sh h (pip_system h)) in
    if negb ok1 then
      let '(out2, ok2) := run_cmd (pip_user h) false (sh h (pip_user h)) in
      if negb ok2 then
        let '(out3, ok3) := run_cmd make_venv false (sh h make_venv) in
        let tried := start ++ out1 ++ out2 ++ ["⚠️  Using virtual environment..."] ++ out3 in
        if negb ok3 then (tried ++ ["❌ Failed to create virtual environment"], false)
        else
          let '(out4, ok4) := run_cmd (pip_venv h) false (sh h (pip_venv h)) in
          if negb ok4
          then (tried ++ out4 ++ ["❌ Failed to install Python dependencies"], false)
          else (tried ++ out4
                  ++ [ "✅ Python dependencies installed in virtual environment";
                       "⚠️  To use GUI, activate venv: source gui/venv/bin/activate" ],
                true)
      else (start ++ out1 ++ out2 ++ ["✅ Python dependencies installed"], true)
    else (start ++ out1 ++ ["✅ Python dependencies installed"], true).

(** One line of the summary of [verify_environment]. *)
Definition summary_line (check_name : string) (passed : bool) : string :=
  (if passed then "✅" else "❌") +:+ " " +:+ check_name.

(** [verify_environment]: the printed lines and the exit status. The four
    checks are the values of a dictionary display and are all run, in order,
    before the summary. *)
Definition verify_environment {rt : Runtime} (h : host) : list string * Z :=
  let '(out1, python) := check_python h in
  let '(out2, nodejs) := check_nodejs h in
  let '(out3, project) := check_dependencies h in
  let '(out4, gui) := install_python_deps h in
  let summary :=
    [ Py.LF +:+ Py.repeat_str "=" 60; "Setup Summary:"; Py.repeat_str "=" 60;
      summary_line "Python version" python;
      summary_line "Node.js/npm" nodejs;
      summary_line "Project dependencies" project;
      summary_line "Python GUI dependencies" gui ] in
  let printed := [Py.LF +:+ "🔍 Verifying environment..."] ++ out1 ++ out2 ++ out3 ++ out4
                 ++ summary in
  if python && nodejs && project && gui
  then (printed ++ [ Py.LF +:+ "✅ Setup complete! You can now run:";
                     "   python gui/poidh_gui.py          # GUI application";
                     "   python gui/cli.py --help         # CLI tools";
                     "   npm run gui:build                # Build standalone executable" ],
        0)
  else (printed ++ [Py.LF +:+ "❌ Setup failed. Please fix errors above."], 1).

End Setup.

(** ** Vocabulary of the statements *)

(** An interpreter for the worked examples: it prints every value other
    than a [str] and every exception as a fixed tag. *)
Definition tagging_runtime : Runtime :=
  {| str_other := fun _ => "<value>"; str_exn := fun _ => "<exception>" |}.

(** An audit entry the loop of [audit_show] can print: a [dict] whose
    timestamp, when present, is a [str] or a [list]. *)
Definition entry_ok (entry : pyval) : bool :=
  match entry with
  | PDict d =>
      match default (PStr "?") (Json.assoc "timestamp" d) with
      | PStr _ | PList _ => true
      | _ => false
      end
  | _ => false
  end.

(** The line [audit_show] prints for such an entry. *)
Definition entry_line {rt : Runtime} (entry : pyval) : string :=
  match entry with
  | PDict d =>
      let ts :=
        match default (PStr "?") (Json.assoc "timestamp" d) with
        | PStr s => PStr (Py.str_slice_to 19 s)
        | PList l => PList (Py.slice_to 19 l)
        | other => other
        end in
      "[" +:+ py_str ts +:+ "] " +:+ py_str (default (PStr "?") (Json.assoc "action" d))
  | _ => ""
  end.

(** The entry list of a document: what [data.get('entries', [])] gives. *)
Definition entries_of (d : list (string * pyval)) : pyval :=
  default (PList []) (Json.assoc "entries" d).

(** The whole lines of a text: those that end with their terminator. *)
Definition whole_lines (s : string) : list string :=
  List.filter (fun line => Py.contains Py.LF line) (Py.readlines s).

(** Two environments differ at most beyond the first four characters of the
    values of the keys [config_show] masks. *)
Definition differ_beyond_4 (env1 env2 : gmap string string) : Prop :=
  forall key,
    if Cli.is_secret key then
      match env1 !! key, env2 !! key with
      | Some v1, Some v2 => Py.str_slice_to 4 v1 = Py.str_slice_to 4 v2
      | None, None => True
      | _, _ => False
      end
    else env1 !! key = env2 !! key.

(** No masked key holds the text [config_show] prints for an unset key. *)
Definition no_placeholder (env : gmap string string) : Prop :=
  forall key, Cli.is_secret key = true -> env !! key <> Some Cli.not_set.

(** The audit document with entries numbered [0] to [n - 1], oldest first. *)
Definition numbered_entry (i : nat) : pyval :=
  PDict [("timestamp", PStr "2024-05-01T10:00:00Z"); ("action", PStr ("STEP " +:+ pretty i))].

Definition numbered_document (n : nat) : json_file :=
  Holds (PDict [("entries", PList (map numbered_entry (seq 0 n)))]).

(** The texts carried by the output events and by the error events of a
    trace of [main.py]'s [ProcessManager]. *)
Definition output_texts (evs : list MainGui.event) : list string :=
  omap (fun ev => match ev with MainGui.Output t => Some t | _ => None end) evs.

Definition error_texts (evs : list MainGui.event) : list string :=
  omap (fun ev => match ev with MainGui.Error t => Some t | _ => None end) evs.

(** A document of three well-formed entries, oldest first. *)
Definition three_entries : list pyval :=
  [ PDict [("timestamp", PStr "2024-05-01T10:00:00.000Z"); ("action", PStr "BOUNTY_CREATED")];
    PDict [("timestamp", PStr "2024-05-01T10:05:00.000Z"); ("action", PStr "CLAIM_SUBMITTED")];
    PDict [("timestamp", PStr "2024-05-01T10:09:00.000Z"); ("action", PStr "WINNER_SUCCESS")] ].

(** A runner whose child ignores the termination signal for 10 seconds. *)
Definition stubborn : PoidhGui.process_manager :=
  {| PoidhGui.running := true;
     PoidhGui.process := Some {| PoidhGui.accepts_signals := true;
                                 PoidhGui.exits_after := Some 10000%N |} |}.

(** The first and the last character of a text. *)
Definition first_char (s : string) : option ascii :=
  match s with
  | EmptyString => None
  | String c _ => Some c
  end.

Fixpoint last_char (s : string) : option ascii :=
  match s with
  | EmptyString => None
  | String c EmptyString => Some c
  | String _ s' => last_char s'
  end.

(** A text without line terminator. *)
Fixpoint no_newline (s : string) : bool :=
  match s with
  | EmptyString => true
  | String c s' => negb (Ascii.eqb c "010") && no_newline s'
  end.

(** The text fields of the form and the formatted gas price hold no line
    terminator. *)
Definition form_single_line {rt : Runtime} (f : MainGui.config_form) : Prop :=
  Forall (fun kv => no_newline (fst kv) && no_newline (snd kv) = true) (MainGui.form_config f).

(** A filled form of the configuration tab of [main.py]. *)
Definition default_form : MainGui.config_form :=
  {| MainGui.supported_chains := "8453,42161,666666666";
     MainGui.base_rpc := "https://mainnet.base.org";
     MainGui.arbitrum_rpc := "https://arb1.arbitrum.io/rpc";
     MainGui.degen_rpc := "https://rpc.degen.tips";
     MainGui.openai_key := "";
     MainGui.openai_model := "gpt-4o";
     MainGui.polling_interval := 30;
     MainGui.max_gas_price := (25, 1);
     MainGui.stream_port := 3001;
     MainGui.log_level := "info";
     MainGui.demo_mode := false |}.

(** * Properties *)

(** ** Trailing slices *)

Lemma slice_start_last (limit : Z) (n : nat) :
  1 <= limit -> Py.slice_start (- limit) n = (n - Z.to_nat limit)%nat.
Proof.
  intros Hl. unfold Py.slice_start.
  destruct (- limit <? 0) eqn:E; [|apply Z.ltb_ge in E; lia].
  lia.
Qed.

Lemma slice_from_last {A} (limit : Z) (l : list A) :
  1 <= limit -> Py.slice_from (- limit) l = drop (length l - Z.to_nat limit) l.
Proof. intros Hl. unfold Py.slice_from. by rewrite slice_start_last. Qed.

Lemma slice_from_zero {A} (l : list A) : Py.slice_from (- 0) l = l.
Proof.
  unfold Py.slice_from, Py.slice_start.
  change (- 0 <? 0) with false. cbv iota.
  replace (Z.to_nat ((- 0) `min` Z.of_nat (length l))) with 0%nat by lia.
  reflexivity.
Qed.

Lemma length_slice_from_last {A} (limit : Z) (l : list A) :
  1 <= limit ->
  length (Py.slice_from (- limit) l) = Nat.min (Z.to_nat limit) (length l).
Proof. intros Hl. rewrite slice_from_last by done. rewrite length_drop. lia. Qed.

Lemma forallb_drop {A} (p : A -> bool) (n : nat) (l : list A) :
  forallb p l = true -> forallb p (drop n l) = true.
Proof.
  revert n. induction l as [|x l IH]; intros [|n]; simpl; auto.
  intros [_ Hl]%andb_prop. auto.
Qed.

(** ** The audit trail printed by the CLI *)

Section AuditShow.
Context `{rt : Runtime}.

Lemma show_entry_ok (entry : pyval) :
  entry_ok entry = true -> Cli.show_entry entry = ([entry_line entry], inr tt).
Proof.
  destruct entry as [| | | | |l|d]; try discriminate. simpl.
  unfold Cli.show_entry. simpl.
  destruct (default (PStr "?") (Json.assoc "timestamp" d));
    try discriminate; intros _; reflexivity.
Qed.

Lemma for_each_show_ok (es : list pyval) :
  forallb entry_ok es = true ->
  IO.for_each Cli.show_entry es = (map entry_line es, inr tt).
Proof.
  induction es as [|e es IH]; simpl; [done|].
  intros [He Hes]%andb_prop. rewrite show_entry_ok by done. simpl.
  rewrite IH by done. reflexivity.
Qed.

(** On a document whose selected entries are all printable, [audit_show]
    prints its two heading lines and one line per selected entry. *)
Lemma audit_show_ok (limit : Z) (d : list (string * pyval)) (es : list pyval) :
  entries_of d = PList es ->
  forallb entry_ok (Py.slice_from (- limit) es) = true ->
  Cli.audit_show limit (Holds (PDict d)) =
    ([Cli.audit_header limit; Py.repeat_str "─" 80]
       ++ map entry_line (Py.slice_from (- limit) es), inr 0).
Proof.
  intros Hd Hok. unfold Cli.audit_show, Cli.last_entries. simpl.
  unfold entries_of in Hd. rewrite Hd. simpl.
  rewrite for_each_show_ok by done. simpl. rewrite app_nil_r. reflexivity.
Qed.

(** C6: for a limit of at least 1 and a document whose entries are
    well-formed, [audit_show] prints the last [min limit total] entries of
    the document, in the document's order (the most recent one last); with
    limit 5 on a document of 3 entries these are exactly the 3 entries. *)
Theorem audit_show_recent (limit : Z) (d : list (string * pyval)) (es : list pyval) :
  1 <= limit ->
  entries_of d = PList es ->
  forallb entry_ok es = true ->
  let shown := drop (length es - Z.to_nat limit) es in
  Cli.audit_show limit (Holds (PDict d)) =
    ([Cli.audit_header limit; Py.repeat_str "─" 80] ++ map entry_line shown, inr 0)
  /\ length shown = Nat.min (Z.to_nat limit) (length es)
  /\ shown `suffix_of` es
  /\ (limit = 5 -> length es = 3%nat -> shown = es).
Proof.
  intros Hl Hd Hok shown. repeat split.
  - rewrite (audit_show_ok limit d es Hd).
    + by rewrite slice_from_last.
    + rewrite slice_from_last by done. by apply forallb_drop.
  - unfold shown. rewrite length_drop. lia.
  - apply suffix_drop.
  - intros -> Hn. unfold shown. rewrite Hn. reflexivity.
Qed.

(** C9: with limit 0 the trailing slice [[-0:]] is the whole entry list, and
    [audit_show] prints every entry; with a limit of at least 1 it prints
    exactly [min limit total] entries after its two heading lines. *)
Theorem audit_show_limit_zero (d : list (string * pyval)) (es : list pyval) :
  entries_of d = PList es ->
  forallb entry_ok es = true ->
  Cli.last_entries 0 (PDict d) = inr (PList es)
  /\ Cli.audit_show 0 (Holds (PDict d)) =
       ([Cli.audit_header 0; Py.repeat_str "─" 80] ++ map entry_line es, inr 0)
  /\ forall limit, 1 <= limit ->
       exists shown,
         Cli.audit_show limit (Holds (PDict d)) =
           ([Cli.audit_header limit; Py.repeat_str "─" 80] ++ map entry_line shown, inr 0)
         /\ length shown = Nat.min (Z.to_nat limit) (length es).
Proof.
  intros Hd Hok. split; [|split].
  - unfold Cli.last_entries. simpl. unfold entries_of in Hd. rewrite Hd. simpl.
    by rewrite slice_from_zero.
  - rewrite (audit_show_ok 0 d es Hd); rewrite slice_from_zero; done.
  - intros limit Hl. exists (Py.slice_from (- limit) es). split.
    + apply audit_show_ok; [done|].
      rewrite slice_from_last by done. by apply forallb_drop.
    + by apply length_slice_from_last.
Qed.

(** C7, as amended: when [exists()] reports that there is no audit
    document, or [open] or [json.load] fails on it, [audit_show] prints one
    notice and no entry and returns 1, whatever the limit; in each of these
    cases, and also when [exists()] itself fails, [MonitorTab.refresh_logs]
    leaves its rows as they are (and shows the status as offline unless the
    file is merely missing). *)
Theorem audit_unavailable_no_entries (limit : Z) (e : exn) (m : PoidhGui.monitor) :
  Cli.audit_show limit Absent = (["❌ No audit trail found"], inr 1)
  /\ Cli.audit_show limit (Unopenable e) = (["❌ Error: " +:+ str_exn e], inr 1)
  /\ Cli.audit_show limit (Unparsable e) = (["❌ Error: " +:+ str_exn e], inr 1)
  /\ PoidhGui.refresh_logs Absent m = m
  /\ PoidhGui.refresh_logs (Unopenable e) m = PoidhGui.offline m
  /\ PoidhGui.refresh_logs (Unparsable e) m = PoidhGui.offline m
  /\ PoidhGui.refresh_logs (Unsearchable e) m = PoidhGui.offline m
  /\ PoidhGui.log_list (PoidhGui.offline m) = PoidhGui.log_list m.
Proof. repeat split. Qed.

End AuditShow.

(** When [exists()] itself fails, nothing is printed and the exception
    leaves [audit_show]: the call stands before the [try]. *)
Example audit_show_probe_error_escapes :
  Cli.audit_show (rt := tagging_runtime) 20
    (Unsearchable (OSError "Permission denied: 'logs/audit-trail.json'"))
  = ([], inl (OSError "Permission denied: 'logs/audit-trail.json'")).
Proof. reflexivity. Qed.

Lemma audit_show_recent_witness :
  let shown := drop (length three_entries - Z.to_nat 5) three_entries in
  Cli.audit_show (rt := tagging_runtime) 5 (Holds (PDict [("entries", PList three_entries)])) =
    ([Cli.audit_header 5; Py.repeat_str "─" 80]
       ++ map (entry_line (rt := tagging_runtime)) shown, inr 0)
  /\ length shown = Nat.min (Z.to_nat 5) (length three_entries)
  /\ shown `suffix_of` three_entries
  /\ (5 = 5 -> length three_entries = 3%nat -> shown = three_entries).
Proof.
  apply (audit_show_recent (rt := tagging_runtime) 5
           [("entries", PList three_entries)] three_entries);
    [lia | reflexivity | reflexivity].
Defined.

Lemma audit_show_limit_zero_witness :
  Cli.audit_show (rt := tagging_runtime) 0 (Holds (PDict [("entries", PList three_entries)])) =
    ([Cli.audit_header 0; Py.repeat_str "─" 80]
       ++ map (entry_line (rt := tagging_runtime)) three_entries, inr 0).
Proof.
  apply (audit_show_limit_zero (rt := tagging_runtime)
           [("entries", PList three_entries)] three_entries);
    reflexivity.
Defined.

(** C7 fails as stated: a document that decodes but holds an entry that is
    not an object has its earlier entries printed before the error is
    reported, and its earlier rows added to the monitor list. *)
Lemma audit_show_partial_output :
  let doc := Holds (PDict [("entries",
               PList [PDict [("timestamp", PStr "2024-05-01T10:00:00.000Z");
                             ("action", PStr "BOUNTY_CREATED")];
                      PInt 7])]) in
  Cli.audit_show (rt := tagging_runtime) 20 doc =
    ([ "📋 Audit Trail (Last 20 entries):"; Py.repeat_str "─" 80;
       "[2024-05-01T10:00:00] BOUNTY_CREATED"; "❌ Error: <exception>" ], inr 1)
  /\ PoidhGui.refresh_logs (rt := tagging_runtime) doc
       {| PoidhGui.status_label := "🟢 Online"; PoidhGui.log_list := [] |} =
     {| PoidhGui.status_label := "🔴 Offline";
        PoidhGui.log_list :=
          [ {| PoidhGui.text := "[2024-05-01T10:00:00.000Z] BOUNTY_CREATED";
               PoidhGui.foreground := None |} ] |}.
Proof. split; vm_compute; reflexivity. Qed.

(** ** The configuration printed by the CLI *)

Lemma config_line_secret (env : gmap string string) (key value : string) :
  Cli.is_secret key = true ->
  env !! key = Some value ->
  value <> Cli.not_set ->
  Cli.config_line env key =
    Py.ljust 25 key +:+ " " +:+ (Py.str_slice_to 4 value +:+ "...").
Proof.
  intros Hs Hv Hne. unfold Cli.config_line, Cli.getenv, Cli.mask.
  rewrite Hs, Hv. simpl.
  destruct (String.eqb value Cli.not_set) eqn:E; [|reflexivity].
  apply String.eqb_eq in E. contradiction.
Qed.

Lemma config_line_agree (env1 env2 : gmap string string) (key : string) :
  no_placeholder env1 -> no_placeholder env2 -> differ_beyond_4 env1 env2 ->
  Cli.config_line env1 key = Cli.config_line env2 key.
Proof.
  intros H1 H2 Hd. specialize (Hd key).
  destruct (Cli.is_secret key) eqn:Hs.
  - specialize (H1 key Hs). specialize (H2 key Hs).
    destruct (env1 !! key) as [v1|] eqn:E1, (env2 !! key) as [v2|] eqn:E2;
      try contradiction.
    + rewrite (config_line_secret env1 key v1), (config_line_secret env2 key v2);
        try done; try congruence.
    + unfold Cli.config_line, Cli.getenv. by rewrite E1, E2.
  - unfold Cli.config_line, Cli.getenv. by rewrite Hs, Hd.
Qed.

(** C10, as amended: when no masked key holds the literal text "(not set)",
    [config_show] prints of the value of a key whose name contains KEY or
    PRIVATE only its first four characters followed by "...", and two
    environments that differ only beyond the first four characters of such
    values give the same output. *)
Theorem config_show_masks (env1 env2 : gmap string string) :
  no_placeholder env1 ->
  no_placeholder env2 ->
  (forall key value,
      Cli.is_secret key = true -> env1 !! key = Some value ->
      Cli.config_line env1 key =
        Py.ljust 25 key +:+ " " +:+ (Py.str_slice_to 4 value +:+ "..."))
  /\ (differ_beyond_4 env1 env2 -> Cli.config_show env1 = Cli.config_show env2).
Proof.
  intros H1 H2. split.
  - intros key value Hs Hv. apply config_line_secret; try done.
    intros ->. by apply (H1 key Hs).
  - intros Hd. unfold Cli.config_show. do 2 f_equal.
    apply map_ext. intros key. by apply config_line_agree.
Qed.

Lemma no_placeholder_singleton (key value : string) :
  value <> Cli.not_set -> no_placeholder {[ key := value ]}.
Proof.
  intros Hne k _ Hk. apply lookup_singleton_Some in Hk as [_ Hk]. congruence.
Qed.

Lemma differ_beyond_4_singleton (key v1 v2 : string) :
  Cli.is_secret key = true ->
  Py.str_slice_to 4 v1 = Py.str_slice_to 4 v2 ->
  differ_beyond_4 {[ key := v1 ]} {[ key := v2 ]}.
Proof.
  intros Hs Hv k. destruct (decide (key = k)) as [->|Hne].
  - rewrite !lookup_singleton_eq. by rewrite Hs.
  - rewrite !lookup_singleton_ne by done. by destruct (Cli.is_secret k).
Qed.

Lemma config_show_masks_witness :
  Cli.config_show {[ "OPENAI_API_KEY" := "sk-live-1111" ]} =
  Cli.config_show {[ "OPENAI_API_KEY" := "sk-live-2222" ]}.
Proof.
  refine (proj2 (config_show_masks {[ "OPENAI_API_KEY" := "sk-live-1111" ]}
                   {[ "OPENAI_API_KEY" := "sk-live-2222" ]} _ _) _).
  - apply no_placeholder_singleton. discriminate.
  - apply no_placeholder_singleton. discriminate.
  - apply differ_beyond_4_singleton; reflexivity.
Defined.

(** C10 fails as stated: a masked key set to the text "(not set)" is printed
    whole, and an environment that differs from it only in the fifth
    character of that value prints something else. *)
Lemma config_show_placeholder_leaks :
  let env1 : gmap string string := {[ "BOT_PRIVATE_KEY" := "(not set)" ]} in
  let env2 : gmap string string := {[ "BOT_PRIVATE_KEY" := "(not-set)" ]} in
  differ_beyond_4 env1 env2
  /\ Cli.config_line env1 "BOT_PRIVATE_KEY" = "BOT_PRIVATE_KEY           (not set)"
  /\ Cli.config_line env2 "BOT_PRIVATE_KEY" = "BOT_PRIVATE_KEY           (not..."
  /\ Cli.config_show env1 <> Cli.config_show env2.
Proof.
  split; [by apply differ_beyond_4_singleton|].
  repeat split; try (vm_compute; reflexivity).
  vm_compute. discriminate.
Qed.

(** ** Lines of a text *)

Lemma append_cons (c : ascii) (a b : string) : String c a +:+ b = String c (a +:+ b).
Proof. reflexivity. Qed.

Lemma append_nil_l (b : string) : "" +:+ b = b.
Proof. reflexivity. Qed.

Lemma append_assoc (a b c : string) : (a +:+ b) +:+ c = a +:+ (b +:+ c).
Proof.
  induction a as [|x a IH]; [done|]. rewrite !append_cons. by rewrite IH.
Qed.

Lemma append_empty_r (a : string) : a +:+ "" = a.
Proof. induction a as [|x a IH]; [done|]. rewrite append_cons. by rewrite IH. Qed.

Lemma concat_empty_cons (x : string) (l : list string) :
  Py.join "" (x :: l) = x +:+ Py.join "" l.
Proof. unfold Py.join. destruct l; simpl; [by rewrite append_empty_r|done]. Qed.

(** Reading lines loses nothing: the lines put together are the text. *)
Lemma join_lines_from (cur s : string) :
  Py.join "" (Py.lines_from cur s) = cur +:+ s.
Proof.
  revert cur. induction s as [|c s IH]; intros cur; simpl.
  - destruct cur; [done|]. unfold Py.join. simpl. by rewrite append_empty_r.
  - destruct (Ascii.eqb c "010") eqn:E.
    + rewrite concat_empty_cons, IH. rewrite append_nil_l, append_assoc.
      by rewrite append_cons, append_nil_l.
    + rewrite IH, append_assoc. by rewrite append_cons, append_nil_l.
Qed.

Lemma join_readlines (s : string) : Py.join "" (Py.readlines s) = s.
Proof. unfold Py.readlines. by rewrite join_lines_from. Qed.

(** What is read up to a line terminator does not depend on what follows. *)
Lemma lines_from_app (cur a b : string) :
  Py.lines_from cur (a +:+ Py.LF +:+ b) =
  Py.lines_from cur (a +:+ Py.LF) ++ Py.readlines b.
Proof.
  revert cur. induction a as [|c a IH]; intros cur.
  - reflexivity.
  - rewrite !append_cons. simpl.
    destruct (Ascii.eqb c "010"); [|by apply IH].
    simpl. f_equal. apply IH.
Qed.

Lemma readlines_app (a b : string) :
  Py.readlines (a +:+ Py.LF +:+ b) = Py.readlines (a +:+ Py.LF) ++ Py.readlines b.
Proof. apply lines_from_app. Qed.

Lemma append_not_empty (cur : string) (c : ascii) : cur +:+ String c "" <> "".
Proof. destruct cur; discriminate. Qed.

(** No line that is read is empty. *)
Lemma lines_from_not_empty (cur s : string) :
  Forall (fun line => line <> "") (Py.lines_from cur s).
Proof.
  revert cur. induction s as [|c s IH]; intros cur; simpl.
  - destruct cur; [constructor|]. by repeat constructor.
  - destruct (Ascii.eqb c "010"); [|by apply IH].
    constructor; [apply append_not_empty|apply IH].
Qed.

Lemma filter_not_empty (lines : list string) :
  Forall (fun line => line <> "") lines ->
  List.filter (fun line => negb (String.eqb line "")) lines = lines.
Proof.
  induction 1 as [|x l Hx Hl IH]; simpl; [done|].
  destruct (String.eqb x "") eqn:E.
  - apply String.eqb_eq in E. contradiction.
  - simpl. by rewrite IH.
Qed.

(** ** The log panes of the dashboard *)

Section Dashboard.
Context {rt : Runtime}.

(** C2, as amended: each refresh that finds the bot log, and is not stopped
    by an audit log that cannot be read, reads the whole bot log again and
    puts in the log pane its last [min 50 total] lines, a last line without
    terminator included, in place of what the pane showed; the audit pane
    gets the last 30 lines of the audit log in the same way, or keeps its
    text when there is no such file. Nothing of the file is lost by cutting
    it into lines, and after an append behind a line terminator the lines
    are the earlier ones followed by the appended ones. *)
Theorem refresh_logs_shows_tail (content old appended : string)
    (audit_log : MainGui.text_file) (d : MainGui.dashboard) :
  (forall e, audit_log <> MainGui.Unreadable e) ->
  let lines := MainGui.last_lines 50 content in
  let d' := MainGui.refresh_logs (MainGui.Text content) audit_log d in
  MainGui.logs_text d' = Py.join "" lines
  /\ MainGui.audit_text d' =
       match audit_log with
       | MainGui.Text audit => Py.join "" (MainGui.last_lines 30 audit)
       | _ => MainGui.audit_text d
       end
  /\ lines = drop (length (Py.readlines content) - 50) (Py.readlines content)
  /\ length lines = Nat.min 50 (length (Py.readlines content))
  /\ lines `suffix_of` Py.readlines content
  /\ Py.join "" (Py.readlines content) = content
  /\ Py.readlines (old +:+ Py.LF +:+ appended)
       = Py.readlines (old +:+ Py.LF) ++ Py.readlines appended.
Proof.
  intros Haudit lines d'.
  assert (lines = drop (length (Py.readlines content) - 50) (Py.readlines content))
    as Hlines.
  { unfold lines, MainGui.last_lines. by rewrite (slice_from_last 50) by lia. }
  split; [|split].
  - unfold d'. destruct audit_log as [|e|audit]; [reflexivity| |reflexivity].
    by destruct (Haudit e).
  - unfold d'. destruct audit_log as [|e|audit]; [reflexivity| |reflexivity].
    by destruct (Haudit e).
  - split; [exact Hlines|]. rewrite Hlines.
    split; [rewrite length_drop; lia|].
    split; [apply suffix_drop|].
    split; [apply join_readlines|apply readlines_app].
Qed.

End Dashboard.

Lemma refresh_logs_shows_tail_witness :
  let d' := MainGui.refresh_logs (rt := tagging_runtime)
              (MainGui.Text ("agent started" +:+ Py.LF +:+ "polling"))
              (MainGui.Text ("BOUNTY_CREATED" +:+ Py.LF))
              {| MainGui.logs_text := "older view"; MainGui.audit_text := "older audit" |} in
  MainGui.logs_text d' = "agent started" +:+ Py.LF +:+ "polling"
  /\ MainGui.audit_text d' = "BOUNTY_CREATED" +:+ Py.LF.
Proof.
  pose proof (refresh_logs_shows_tail (rt := tagging_runtime)
                ("agent started" +:+ Py.LF +:+ "polling") "" ""
                (MainGui.Text ("BOUNTY_CREATED" +:+ Py.LF))
                {| MainGui.logs_text := "older view"; MainGui.audit_text := "older audit" |}
                ltac:(discriminate)) as (Hlogs & Haudit & _).
  split; [exact Hlogs|exact Haudit].
Defined.

(** C2 fails as stated: a second refresh of an unchanged log shows its line
    again although nothing was appended, and a last line without terminator
    is shown at once. *)
Lemma refresh_logs_repeats_lines :
  let old := "agent started" +:+ Py.LF in
  let pane := {| MainGui.logs_text := ""; MainGui.audit_text := "" |} in
  let once := MainGui.refresh_logs (rt := tagging_runtime) (MainGui.Text old) MainGui.NoFile pane in
  let twice := MainGui.refresh_logs (rt := tagging_runtime) (MainGui.Text old) MainGui.NoFile once in
  MainGui.logs_text once = old
  /\ MainGui.logs_text twice = old
  /\ MainGui.last_lines 50 (old +:+ "") = [old]
  /\ whole_lines "" = []
  /\ MainGui.last_lines 50 (old +:+ "poll") = [old; "poll"]
  /\ whole_lines "poll" = [].
Proof. repeat split. Qed.

(** ** The process runners *)

Lemma output_texts_app (l1 l2 : list MainGui.event) :
  output_texts (l1 ++ l2) = output_texts l1 ++ output_texts l2.
Proof. apply omap_app. Qed.

Lemma error_texts_app (l1 l2 : list MainGui.event) :
  error_texts (l1 ++ l2) = error_texts l1 ++ error_texts l2.
Proof. apply omap_app. Qed.

Lemma output_texts_lines (f : string -> string) (lines : list string) :
  output_texts (map (fun line => MainGui.Output (f line)) lines) = map f lines
  /\ error_texts (map (fun line => MainGui.Output (f line)) lines) = [].
Proof.
  unfold output_texts, error_texts.
  induction lines as [|x l [IH1 IH2]]; [done|].
  split; [simpl; f_equal; exact IH1|exact IH2].
Qed.

Lemma bounty_log_foldl (t : PoidhGui.bounty_tab) (evs : list PoidhGui.event) :
  PoidhGui.log (foldl PoidhGui.deliver t evs) =
  PoidhGui.log t ++ map (fun ev => match ev with
                                   | PoidhGui.Output text => text
                                   | PoidhGui.Error text => "❌ " +:+ text
                                   | PoidhGui.Finished code => PoidhGui.on_process_finished code
                                   end) evs.
Proof.
  revert t. induction evs as [|ev evs IH]; intros t; simpl.
  - by rewrite app_nil_r.
  - rewrite IH. simpl. by rewrite <- app_assoc.
Qed.

Lemma agent_output_foldl (t : MainGui.agent_tab) (evs : list MainGui.event) :
  MainGui.output_text (foldl MainGui.deliver t evs) =
  MainGui.output_text t ++ map (fun ev => match ev with
                                          | MainGui.Output text => text
                                          | MainGui.Error text => "❌ Error: " +:+ text
                                          | MainGui.Finished => Py.LF +:+ "✅ Process completed."
                                          end) evs.
Proof.
  revert t. induction evs as [|ev evs IH]; intros t; simpl.
  - by rewrite app_nil_r.
  - rewrite IH. simpl. by rewrite <- app_assoc.
Qed.

Lemma main_non_terminal_snoc (ths : list MainGui.thread) (cmd : list string) :
  length (List.filter (fun th => negb (MainGui.finished th))
            (ths ++ [{| MainGui.command := cmd; MainGui.finished := false |}]))
  = S (length (List.filter (fun th => negb (MainGui.finished th)) ths)).
Proof. rewrite List.filter_app, length_app. simpl. lia. Qed.

Lemma poidh_non_terminal_snoc (ths : list PoidhGui.thread) (cmd : string) :
  length (List.filter (fun th => negb (PoidhGui.finished th))
            (ths ++ [{| PoidhGui.command := cmd; PoidhGui.finished := false |}]))
  = S (length (List.filter (fun th => negb (PoidhGui.finished th)) ths)).
Proof. rewrite List.filter_app, length_app. simpl. lia. Qed.

Section Runners.
Context {rt : Runtime}.

Lemma poidh_run_all_lines (p : PoidhGui.child) :
  PoidhGui.run None (PoidhGui.Spawns p) =
    map (fun line => PoidhGui.Output (Py.rstrip line)) (Py.readlines (PoidhGui.output p))
    ++ [PoidhGui.Finished (PoidhGui.returncode p)].
Proof.
  unfold PoidhGui.run. rewrite filter_not_empty; [done|].
  apply lines_from_not_empty.
Qed.

(** C4, as amended: [poidh_gui.py] starts the child with standard error
    redirected into standard output and emits one output event per line of
    that single stream, in order and without its trailing whitespace, then
    the finished event; the events for the lines up to a terminator do not
    wait for what follows. For a child that has run to its exit, [main.py]
    emits first one output event per line of standard output, stripped on
    both sides, then, only when the exit code is not 0 and the text read
    from standard error is not empty, one error event holding that text,
    and last the finished event; no other event carries standard error. *)
Theorem output_line_events (p : PoidhGui.child) (q : MainGui.child) (a b : string) (rc : Z) :
  PoidhGui.run None (PoidhGui.Spawns p) =
    map (fun line => PoidhGui.Output (Py.rstrip line)) (Py.readlines (PoidhGui.output p))
    ++ [PoidhGui.Finished (PoidhGui.returncode p)]
  /\ map (fun line => PoidhGui.Output (Py.rstrip line)) (Py.readlines (a +:+ Py.LF))
       `prefix_of`
     PoidhGui.run None
       (PoidhGui.Spawns {| PoidhGui.output := a +:+ Py.LF +:+ b; PoidhGui.returncode := rc |})
  /\ MainGui.run (MainGui.Spawns q) =
       map (fun line => MainGui.Output (Py.strip line)) (Py.readlines (MainGui.stdout q))
       ++ (if negb (MainGui.returncode q =? 0) && negb (String.eqb (MainGui.stderr q) "")
           then [MainGui.Error (MainGui.stderr q)] else [])
       ++ [MainGui.Finished]
  /\ output_texts (MainGui.run (MainGui.Spawns q)) =
       map Py.strip (Py.readlines (MainGui.stdout q))
  /\ error_texts (MainGui.run (MainGui.Spawns q)) =
       (if negb (MainGui.returncode q =? 0) && negb (String.eqb (MainGui.stderr q) "")
        then [MainGui.stderr q] else [])
  /\ last (MainGui.run (MainGui.Spawns q)) = Some MainGui.Finished.
Proof.
  split; [apply poidh_run_all_lines|]. split; [|split; [|split; [|split]]];
    [|unfold MainGui.run;
      by destruct (negb (MainGui.returncode q =? 0)),
                  (negb (String.eqb (MainGui.stderr q) ""))| | |].
  - rewrite poidh_run_all_lines. simpl. rewrite readlines_app, map_app, <- app_assoc.
    by apply prefix_app_r.
  - unfold MainGui.run. rewrite !output_texts_app.
    rewrite (proj1 (output_texts_lines Py.strip _)).
    destruct (negb (MainGui.returncode q =? 0)), (negb (String.eqb (MainGui.stderr q) ""));
      simpl; by rewrite app_nil_r.
  - unfold MainGui.run. rewrite !error_texts_app.
    rewrite (proj2 (output_texts_lines Py.strip _)).
    by destruct (negb (MainGui.returncode q =? 0)), (negb (String.eqb (MainGui.stderr q) "")).
  - unfold MainGui.run. by rewrite app_assoc, last_snoc.
Qed.

(** C8, as amended: in [poidh_gui.py] the finished event is the last event
    and carries the exit code of the child, whatever it is (and -1 when the
    runner itself failed), and the tab logs it as its last paragraph; in
    [main.py] the finished event carries nothing, so that two children that
    differ only in their exit code, with nothing on standard error, give the
    same events. *)
Theorem finished_event_exit_code (stopped_at : option nat) (p : PoidhGui.child) (e : exn)
    (t : PoidhGui.bounty_tab) (s : MainGui.spawn) (out : string) (rc1 rc2 : Z) :
  last (PoidhGui.run stopped_at (PoidhGui.Spawns p))
    = Some (PoidhGui.Finished (PoidhGui.returncode p))
  /\ last (PoidhGui.run stopped_at (PoidhGui.SpawnFails e)) = Some (PoidhGui.Finished (-1))
  /\ last (PoidhGui.log (foldl PoidhGui.deliver t (PoidhGui.run stopped_at (PoidhGui.Spawns p))))
       = Some (PoidhGui.on_process_finished (PoidhGui.returncode p))
  /\ PoidhGui.on_process_finished 0 = Py.LF +:+ "✅ Success"
  /\ last (MainGui.run s) = Some MainGui.Finished
  /\ MainGui.run (MainGui.Spawns {| MainGui.stdout := out; MainGui.stderr := "";
                                    MainGui.returncode := rc1 |})
     = MainGui.run (MainGui.Spawns {| MainGui.stdout := out; MainGui.stderr := "";
                                      MainGui.returncode := rc2 |}).
Proof.
  split; [|split; [|split; [|split; [|split]]]].
  - unfold PoidhGui.run. by rewrite last_snoc.
  - reflexivity.
  - rewrite bounty_log_foldl. unfold PoidhGui.run.
    rewrite map_app. simpl. by rewrite app_assoc, last_snoc.
  - reflexivity.
  - destruct s as [e'|q]; [reflexivity|].
    unfold MainGui.run. by rewrite app_assoc, last_snoc.
  - unfold MainGui.run. simpl. by destruct (rc1 =? 0), (rc2 =? 0).
Qed.

(** C5, as amended: [run_npm_command] returns after it has stored a new
    thread record in the tab, with only its "Running" paragraph shown; when
    the child cannot be spawned the thread reports it afterwards, as an
    error event followed by the finished event, which the tab appends; a
    further launch is then accepted like any other. *)
Theorem spawn_failure_reported_later (cmd : list string) (e : exn) (w : MainGui.world) :
  let i := length (MainGui.threads w) in
  let w1 := MainGui.run_npm_command cmd w in
  let w2 := MainGui.thread_runs i (MainGui.SpawnFails e) w1 in
  MainGui.process_manager (MainGui.tab w1) = Some i
  /\ MainGui.threads w1 !! i = Some {| MainGui.command := cmd; MainGui.finished := false |}
  /\ MainGui.output_text (MainGui.tab w1)
       = ["Running: " +:+ Py.join " " cmd +:+ "..." +:+ Py.LF]
  /\ MainGui.run (MainGui.SpawnFails e) = [MainGui.Error (str_exn e); MainGui.Finished]
  /\ MainGui.output_text (MainGui.tab w2)
       = MainGui.output_text (MainGui.tab w1)
         ++ ["❌ Error: " +:+ str_exn e; Py.LF +:+ "✅ Process completed."]
  /\ MainGui.threads w2 !! i = Some {| MainGui.command := cmd; MainGui.finished := true |}
  /\ MainGui.non_terminal (MainGui.run_npm_command cmd w2) = S (MainGui.non_terminal w2).
Proof.
  intros i w1 w2.
  assert (MainGui.threads w1 !! i
          = Some {| MainGui.command := cmd; MainGui.finished := false |}) as Hi.
  { unfold w1, i. simpl. by apply list_lookup_middle. }
  split; [reflexivity|]. split; [exact Hi|]. split; [reflexivity|].
  split; [reflexivity|].
  unfold w2, MainGui.thread_runs. rewrite Hi. simpl.
  split; [reflexivity|]. split.
  - apply list_lookup_insert_eq. rewrite length_app. simpl. lia.
  - unfold MainGui.non_terminal. simpl. apply main_non_terminal_snoc.
Qed.

Lemma thread_runs_length (i : nat) (s : MainGui.spawn) (w : MainGui.world) :
  length (MainGui.threads (MainGui.thread_runs i s w)) = length (MainGui.threads w).
Proof.
  unfold MainGui.thread_runs. destruct (MainGui.threads w !! i) as [th|]; [|done].
  destruct (MainGui.finished th); [done|]. simpl. apply length_insert.
Qed.

Lemma exec_threads (steps : list MainGui.step) (w : MainGui.world) :
  length (MainGui.threads (foldl MainGui.exec w steps))
  = (length (MainGui.threads w) + MainGui.launches steps)%nat.
Proof.
  revert w. induction steps as [|st steps IH]; intros w; simpl.
  - unfold MainGui.launches. simpl. lia.
  - rewrite IH. unfold MainGui.launches. destruct st as [cmd|i s]; simpl.
    + rewrite length_app. simpl. lia.
    + rewrite thread_runs_length. lia.
Qed.

(** C1, as amended: no launch is refused. [run_npm_command] and
    [launch_bounty] start a new thread whatever the state of the one the tab
    refers to, make the tab refer to the new one and add one to the jobs
    that have not finished; over any sequence of launches and completions
    the threads started are as many as the launches. *)
Theorem launch_always_spawns (cmd : list string) (w : MainGui.world)
    (f : PoidhGui.form) (v : PoidhGui.world) (steps : list MainGui.step) :
  MainGui.non_terminal (MainGui.run_npm_command cmd w) = S (MainGui.non_terminal w)
  /\ MainGui.process_manager (MainGui.tab (MainGui.run_npm_command cmd w))
       = Some (length (MainGui.threads w))
  /\ PoidhGui.non_terminal (PoidhGui.launch_bounty f v) = S (PoidhGui.non_terminal v)
  /\ PoidhGui.current (PoidhGui.tab (PoidhGui.launch_bounty f v))
       = Some (length (PoidhGui.threads v))
  /\ length (MainGui.threads (foldl MainGui.exec w steps))
       = (length (MainGui.threads w) + MainGui.launches steps)%nat.
Proof.
  split; [apply main_non_terminal_snoc|]. split; [reflexivity|].
  split; [apply poidh_non_terminal_snoc|]. split; [reflexivity|].
  apply exec_threads.
Qed.

End Runners.

(** C4 fails as stated: a child of [main.py]'s runner that exits with code 0
    has the line it wrote on standard error delivered in no event. *)
Lemma stderr_line_never_delivered :
  MainGui.run (rt := tagging_runtime)
    (MainGui.Spawns {| MainGui.stdout := "building" +:+ Py.LF;
                       MainGui.stderr := "warning: deprecated" +:+ Py.LF;
                       MainGui.returncode := 0 |})
  = [MainGui.Output "building"; MainGui.Finished].
Proof. reflexivity. Qed.

(** C8 fails as stated: in [main.py] a child that exits with code 3 gives
    the same events as one that exits with code 0, and the tab logs the same
    paragraphs for both. *)
Lemma exit_code_not_surfaced :
  let child rc := MainGui.Spawns {| MainGui.stdout := "done" +:+ Py.LF;
                                    MainGui.stderr := ""; MainGui.returncode := rc |} in
  let w := MainGui.run_npm_command ["npm"; "run"; "agent:meal"] MainGui.initial in
  MainGui.run (rt := tagging_runtime) (child 3) = [MainGui.Output "done"; MainGui.Finished]
  /\ MainGui.run (rt := tagging_runtime) (child 0) = [MainGui.Output "done"; MainGui.Finished]
  /\ MainGui.thread_runs (rt := tagging_runtime) 0 (child 3) w
     = MainGui.thread_runs (rt := tagging_runtime) 0 (child 0) w.
Proof. repeat split. Qed.

(** C5 fails as stated: after a launch whose child cannot be spawned the tab
    holds a thread record and shows no failure; the failure is appended to
    the output when the thread has run. *)
Lemma failed_spawn_leaves_record :
  let cmd := ["npm"; "run"; "agent:outside"] in
  let w1 := MainGui.run_npm_command cmd MainGui.initial in
  let w2 := MainGui.thread_runs (rt := tagging_runtime) 0
              (MainGui.SpawnFails (OSError "No such file or directory: 'npm'")) w1 in
  MainGui.process_manager (MainGui.tab w1) = Some 0%nat
  /\ MainGui.threads w1 = [{| MainGui.command := cmd; MainGui.finished := false |}]
  /\ MainGui.output_text (MainGui.tab w1) = ["Running: npm run agent:outside..." +:+ Py.LF]
  /\ MainGui.output_text (MainGui.tab w2)
     = ["Running: npm run agent:outside..." +:+ Py.LF; "❌ Error: <exception>";
        Py.LF +:+ "✅ Process completed."].
Proof. repeat split. Qed.

(** C1 fails as stated: a second launch while the first job has not finished
    is accepted, and the tab then has two jobs that have not finished. *)
Lemma second_launch_accepted :
  let w1 := MainGui.run_npm_command ["npm"; "run"; "agent:monitor"] MainGui.initial in
  let w2 := MainGui.run_npm_command ["npm"; "run"; "agent:outside"] w1 in
  let v1 := PoidhGui.launch_bounty
              {| PoidhGui.template := "proveOutside"; PoidhGui.use_override := false;
                 PoidhGui.override_reward := "0.001" |} PoidhGui.initial in
  let v2 := PoidhGui.launch_bounty
              {| PoidhGui.template := "mealPhoto"; PoidhGui.use_override := false;
                 PoidhGui.override_reward := "0.001" |} v1 in
  MainGui.non_terminal w1 = 1%nat
  /\ MainGui.non_terminal w2 = 2%nat
  /\ MainGui.threads w2 =
       [ {| MainGui.command := ["npm"; "run"; "agent:monitor"]; MainGui.finished := false |};
         {| MainGui.command := ["npm"; "run"; "agent:outside"]; MainGui.finished := false |} ]
  /\ PoidhGui.non_terminal v1 = 1%nat
  /\ PoidhGui.non_terminal v2 = 2%nat.
Proof. repeat split. Qed.

(** ** Stopping a runner *)

Lemma wait_spec (r : PoidhGui.reaction) (timeout_s : N) :
  match PoidhGui.wait r timeout_s with
  | Some d => PoidhGui.exits_after r = Some d /\ (d <= timeout_s * 1000)%N
  | None => forall d, PoidhGui.exits_after r = Some d -> (timeout_s * 1000 < d)%N
  end.
Proof.
  unfold PoidhGui.wait. destruct (PoidhGui.exits_after r) as [d|]; [|discriminate].
  destruct (N.leb_spec d (timeout_s * 1000)).
  - by split.
  - by intros d' [= <-].
Qed.

(** C3: [stop] first sends the termination signal and waits for the child
    with a timeout of 5 seconds; it sends the kill only when that wait has
    timed out, that is when the child has not exited within 5 seconds, and
    it sends it at the 5 second mark. Measured from the call of [stop], a
    child that the operating system lets the runner signal is gone after 5
    seconds at the latest, also when it ignores the termination signal.
    Time is counted in milliseconds on a clock on which the calls themselves
    take no time and a kill takes effect at once. *)
Theorem stop_grace_period (pm : PoidhGui.process_manager) (r : PoidhGui.reaction) :
  PoidhGui.process pm = Some r ->
  PoidhGui.accepts_signals r = true ->
  let trace := snd (PoidhGui.stop pm) in
  head trace = Some (0%N, PoidhGui.Terminate)
  /\ (forall t, PoidhGui.killed_at trace = Some t ->
        t = 5000%N /\ forall d, PoidhGui.exits_after r = Some d -> (5000 < d)%N)
  /\ (forall d, PoidhGui.exits_after r = Some d -> (d <= 5000)%N ->
        PoidhGui.killed_at trace = None /\ PoidhGui.gone_at r trace = Some d)
  /\ ((forall d, PoidhGui.exits_after r = Some d -> (5000 < d)%N) ->
        PoidhGui.killed_at trace = Some 5000%N
        /\ PoidhGui.gone_at r trace = Some 5000%N)
  /\ (exists t, PoidhGui.gone_at r trace = Some t /\ (t <= 5000)%N)
  /\ PoidhGui.running (fst (PoidhGui.stop pm)) = false.
Proof.
  intros Hp Ha trace. unfold trace, PoidhGui.stop. rewrite Hp, Ha.
  pose proof (wait_spec r 5) as Hw. unfold PoidhGui.gone_at.
  destruct (PoidhGui.wait r 5) as [d|]; simpl in *.
  - destruct Hw as [Hd Hle]. rewrite Hd.
    split; [done|]. split; [discriminate|].
    split; [by intros d' [= <-] _|].
    split; [intros Hall; specialize (Hall d eq_refl); lia|].
    split; [|done]. exists d. split; [done|lia].
  - split; [done|]. split; [intros t [= <-]; split; [done|]; intros d Hd; by apply Hw|].
    split; [intros d Hd Hle; specialize (Hw d Hd); lia|].
    destruct (PoidhGui.exits_after r) as [d|] eqn:Hd.
    + specialize (Hw d eq_refl).
      split; [intros _; split; [done|]; f_equal; lia|].
      split; [|done]. exists (N.min d 5000). split; [done|lia].
    + split; [done|]. split; [|done]. by exists 5000%N.
Qed.

Lemma stop_grace_period_witness :
  snd (PoidhGui.stop stubborn)
    = [(0%N, PoidhGui.Terminate); (0%N, PoidhGui.Wait 5); (5000%N, PoidhGui.Kill)]
  /\ exists t,
       PoidhGui.gone_at {| PoidhGui.accepts_signals := true;
                           PoidhGui.exits_after := Some 10000%N |}
         (snd (PoidhGui.stop stubborn)) = Some t
       /\ (t <= 5000)%N.
Proof.
  split; [reflexivity|].
  apply (stop_grace_period stubborn
           {| PoidhGui.accepts_signals := true; PoidhGui.exits_after := Some 10000%N |});
    reflexivity.
Defined.

(** ** The rows of the monitor tab *)

(** [MonitorTab.refresh_logs] adds the entries it has not shown yet while
    the document holds at most 20 of them; once it shows 20 rows, a further
    entry of the document is not added. *)
Example monitor_rows_grow_then_stall :
  let blank := {| PoidhGui.status_label := "🔴 Offline"; PoidhGui.log_list := [] |} in
  let m2 := PoidhGui.refresh_logs (rt := tagging_runtime) (numbered_document 2) blank in
  let m3 := PoidhGui.refresh_logs (rt := tagging_runtime) (numbered_document 3) m2 in
  let m20 := PoidhGui.refresh_logs (rt := tagging_runtime) (numbered_document 20) m3 in
  let m21 := PoidhGui.refresh_logs (rt := tagging_runtime) (numbered_document 21) m20 in
  map PoidhGui.text (PoidhGui.log_list m2)
    = ["[2024-05-01T10:00:00Z] STEP 0"; "[2024-05-01T10:00:00Z] STEP 1"]
  /\ map PoidhGui.text (PoidhGui.log_list m3)
     = map PoidhGui.text (PoidhGui.log_list m2) ++ ["[2024-05-01T10:00:00Z] STEP 2"]
  /\ length (PoidhGui.log_list m20) = 20%nat
  /\ PoidhGui.log_list m21 = PoidhGui.log_list m20.
Proof. repeat split; vm_compute; reflexivity. Qed.

(** * Further properties of the code *)

(** ** More on the audit trail printed by the CLI *)

Lemma slice_start_positive (k : Z) (n : nat) :
  0 <= k -> Py.slice_start k n = Nat.min (Z.to_nat k) n.
Proof.
  intros Hk. unfold Py.slice_start.
  destruct (k <? 0) eqn:E; [apply Z.ltb_lt in E; lia|]. lia.
Qed.

Lemma show_entry_bad {rt : Runtime} (entry : pyval) :
  entry_ok entry = false -> exists e, Cli.show_entry entry = ([], inl e).
Proof.
  unfold Cli.show_entry.
  destruct entry as [| | | | |l|d]; simpl; try (intros _; eexists; reflexivity).
  destruct (default (PStr "?") (Json.assoc "timestamp" d));
    simpl; try discriminate; intros _; eexists; reflexivity.
Qed.

Lemma for_each_show_stops {rt : Runtime} (good rest : list pyval) (bad : pyval) :
  forallb entry_ok good = true ->
  entry_ok bad = false ->
  exists e, IO.for_each Cli.show_entry (good ++ bad :: rest) = (map entry_line good, inl e).
Proof.
  intros Hgood Hbad. induction good as [|g good IH]; simpl.
  - destruct (show_entry_bad bad Hbad) as [e He]. exists e. by rewrite He.
  - apply andb_prop in Hgood as [Hg Hgood].
    destruct (IH Hgood) as [e He]. exists e.
    rewrite show_entry_ok by done. simpl. by rewrite He.
Qed.

Section AuditShowMore.
Context {rt : Runtime}.

(** X1: a negative limit [-k] makes the slice [[k:]]: [audit_show] then leaves
    out the [k] oldest entries and prints all the later ones. *)
Theorem audit_show_negative_limit (limit : Z) (d : list (string * pyval))
    (es : list pyval) :
  limit < 0 ->
  entries_of d = PList es ->
  forallb entry_ok es = true ->
  Cli.audit_show limit (Holds (PDict d)) =
    ([Cli.audit_header limit; Py.repeat_str "─" 80]
       ++ map entry_line (drop (Z.to_nat (- limit)) es), inr 0).
Proof.
  intros Hl Hd Hok.
  assert (Py.slice_from (- limit) es = drop (Z.to_nat (- limit)) es) as Hs.
  { unfold Py.slice_from. rewrite slice_start_positive by lia.
    destruct (Nat.le_ge_cases (Z.to_nat (- limit)) (length es)) as [Hle|Hge].
    - by rewrite Nat.min_l.
    - rewrite Nat.min_r by done. by rewrite !drop_ge. }
  rewrite (audit_show_ok limit d es Hd); rewrite Hs; [done|].
  by apply forallb_drop.
Qed.

(** X2: when the selected entries hold one that cannot be printed, [audit_show]
    prints the entries before the first such one, then the error, and
    returns 1; the entries after it are not printed. *)
Theorem audit_show_stops_at_bad_entry (limit : Z) (d : list (string * pyval))
    (es good rest : list pyval) (bad : pyval) :
  entries_of d = PList es ->
  Py.slice_from (- limit) es = good ++ bad :: rest ->
  forallb entry_ok good = true ->
  entry_ok bad = false ->
  exists e,
    Cli.audit_show limit (Holds (PDict d)) =
      ([Cli.audit_header limit; Py.repeat_str "─" 80]
         ++ map entry_line good ++ ["❌ Error: " +:+ str_exn e], inr 1).
Proof.
  intros Hd Hs Hgood Hbad.
  destruct (for_each_show_stops good rest bad Hgood Hbad) as [e He]. exists e.
  unfold Cli.audit_show, Cli.last_entries. simpl.
  unfold entries_of in Hd. rewrite Hd. simpl. rewrite Hs, He. reflexivity.
Qed.

(** X3: a document without an [entries] key is an empty trail: the two heading
    lines are printed, and the return code is 0 for every limit. *)
Theorem audit_show_no_entries_key (limit : Z) (d : list (string * pyval)) :
  Json.assoc "entries" d = None ->
  Cli.audit_show limit (Holds (PDict d)) =
    ([Cli.audit_header limit; Py.repeat_str "─" 80], inr 0).
Proof.
  intros Hd. rewrite (audit_show_ok limit d []).
  - unfold Py.slice_from. by rewrite drop_nil.
  - unfold entries_of. by rewrite Hd.
  - unfold Py.slice_from. by rewrite drop_nil.
Qed.

End AuditShowMore.

Lemma audit_show_negative_limit_witness :
  Cli.audit_show (rt := tagging_runtime) (-2) (Holds (PDict [("entries", PList three_entries)])) =
    ([Cli.audit_header (-2); Py.repeat_str "─" 80]
       ++ map (entry_line (rt := tagging_runtime)) (drop (Z.to_nat (- -2)) three_entries), inr 0).
Proof.
  apply (audit_show_negative_limit (rt := tagging_runtime) (-2)
           [("entries", PList three_entries)] three_entries);
    [lia | reflexivity | reflexivity].
Defined.

Lemma audit_show_stops_at_bad_entry_witness :
  exists e,
    Cli.audit_show (rt := tagging_runtime) 20
      (Holds (PDict [("entries", PList (three_entries ++ [PInt 7; PNone]))])) =
      ([Cli.audit_header 20; Py.repeat_str "─" 80]
         ++ map (entry_line (rt := tagging_runtime)) three_entries
         ++ ["❌ Error: " +:+ str_exn (Runtime := tagging_runtime) e], inr 1).
Proof.
  apply (audit_show_stops_at_bad_entry (rt := tagging_runtime) 20
           [("entries", PList (three_entries ++ [PInt 7; PNone]))]
           (three_entries ++ [PInt 7; PNone]) three_entries [PNone] (PInt 7));
    reflexivity.
Defined.

Lemma audit_show_no_entries_key_witness :
  Cli.audit_show (rt := tagging_runtime) 20 (Holds (PDict [("version", PInt 1)])) =
    ([Cli.audit_header 20; Py.repeat_str "─" 80], inr 0).
Proof.
  apply (audit_show_no_entries_key (rt := tagging_runtime) 20 [("version", PInt 1)]).
  reflexivity.
Defined.

(** ** What the printed configuration discloses *)

(** X4: the value of a key that is not masked is printed whole: two
    environments that give the same line for such a key hold the same value
    for it (an unset key counting as the text "(not set)"). *)
Theorem config_line_discloses (env1 env2 : gmap string string) (key : string) :
  Cli.is_secret key = false ->
  Cli.config_line env1 key = Cli.config_line env2 key ->
  Cli.getenv env1 key Cli.not_set = Cli.getenv env2 key Cli.not_set.
Proof.
  unfold Cli.config_line. intros -> Heq.
  apply (inj (String.app (Py.ljust 25 key))) in Heq.
  by apply (inj (String.app " ")) in Heq.
Qed.

Lemma config_line_discloses_witness :
  Cli.getenv {[ "BASE_RPC_URL" := "https://mainnet.base.org" ]} "BASE_RPC_URL" Cli.not_set
  = Cli.getenv (<[ "CHAIN_ID" := "8453" ]> {[ "BASE_RPC_URL" := "https://mainnet.base.org" ]})
      "BASE_RPC_URL" Cli.not_set.
Proof.
  apply (config_line_discloses {[ "BASE_RPC_URL" := "https://mainnet.base.org" ]}
           (<[ "CHAIN_ID" := "8453" ]> {[ "BASE_RPC_URL" := "https://mainnet.base.org" ]})
           "BASE_RPC_URL");
    reflexivity.
Defined.

(** ** Launching a bounty *)

(** X5: a reward of zero is treated like no reward: the command has no reward
    option. With a reward that is not zero the CLI builds the command that
    the bounty tab of [poidh_gui.py] builds for the same template with the
    override ticked. *)
Theorem bounty_command_reward {rt : Runtime} (bounty_type : string) (m e : Z) :
  Cli.bounty_command bounty_type (Some (0, e)) = Cli.bounty_command bounty_type None
  /\ Cli.bounty_command bounty_type None = "npm run agent " +:+ bounty_type
  /\ (m <> 0 ->
      Cli.bounty_command bounty_type (Some (m, e)) =
      PoidhGui.bounty_command
        {| PoidhGui.template := bounty_type; PoidhGui.use_override := true;
           PoidhGui.override_reward := py_str (PFloat m e) |}).
Proof.
  split; [reflexivity|]. split; [reflexivity|].
  intros Hm. unfold Cli.bounty_command, Cli.float_true, PoidhGui.bounty_command. simpl.
  destruct (Z.eqb_spec m 0); [contradiction|]. simpl.
  by rewrite append_assoc.
Qed.

Lemma bounty_command_reward_witness :
  Cli.bounty_command (rt := tagging_runtime) "proveOutside" (Some (5, -9)) =
  PoidhGui.bounty_command
    {| PoidhGui.template := "proveOutside"; PoidhGui.use_override := true;
       PoidhGui.override_reward := py_str (rt := tagging_runtime) (PFloat 5 (-9)) |}.
Proof.
  apply (bounty_command_reward (rt := tagging_runtime) "proveOutside" 5 (-9)). lia.
Defined.

(** ** The paragraph logged when a bounty process ends *)

Lemma append_char_inj (a b : string) (c : ascii) :
  a +:+ String c "" = b +:+ String c "" -> a = b.
Proof.
  revert b. induction a as [|x a IH]; intros [|y b]; rewrite ?append_cons, ?append_nil_l.
  - done.
  - intros [= _ H]. by destruct b.
  - intros [= _ H]. by destruct a.
  - intros [= -> H]. f_equal. by apply IH.
Qed.

(** X6: the paragraph [on_process_finished] logs tells the exit code: two exit
    codes that give the same paragraph are equal. *)
Theorem on_process_finished_inj (code1 code2 : Z) :
  PoidhGui.on_process_finished code1 = PoidhGui.on_process_finished code2 ->
  code1 = code2.
Proof.
  unfold PoidhGui.on_process_finished. intros Heq.
  apply (inj (String.app Py.LF)) in Heq.
  destruct (Z.eqb_spec code1 0) as [H1|H1]; destruct (Z.eqb_spec code2 0) as [H2|H2].
  - congruence.
  - exfalso. revert Heq. generalize (pretty code2). intros s. by vm_compute.
  - exfalso. revert Heq. generalize (pretty code1). intros s. by vm_compute.
  - apply (inj (String.app "❌ Failed (code ")) in Heq.
    apply append_char_inj in Heq. by apply (inj pretty) in Heq.
Qed.

Lemma on_process_finished_inj_witness : (137 : Z) = 137.
Proof. apply (on_process_finished_inj 137 137). reflexivity. Defined.

(** ** More on the log panes of the dashboard *)

Lemma join_app (a b : list string) :
  Py.join "" (a ++ b) = Py.join "" a +:+ Py.join "" b.
Proof.
  induction a as [|x a IH]; [done|].
  rewrite <- app_comm_cons, !concat_empty_cons, IH. by rewrite append_assoc.
Qed.

(** X7: what the pane shows is an end of the file: the file is some skipped text
    followed by the shown text, and a file of at most 50 lines is shown
    whole. *)
Theorem tail_text_is_end_of_file (content : string) :
  (exists skipped, content = skipped +:+ MainGui.tail_text 50 content)
  /\ ((length (Py.readlines content) <= 50)%nat -> MainGui.tail_text 50 content = content).
Proof.
  unfold MainGui.tail_text, MainGui.last_lines.
  rewrite (slice_from_last 50) by lia. split.
  - exists (Py.join "" (take (length (Py.readlines content) - 50) (Py.readlines content))).
    rewrite <- join_app, take_drop. by rewrite join_readlines.
  - intros Hle. replace (length (Py.readlines content) - Z.to_nat 50)%nat with 0%nat by lia.
    rewrite drop_0. apply join_readlines.
Qed.

Lemma tail_text_is_end_of_file_witness :
  MainGui.tail_text 50 ("first" +:+ Py.LF +:+ "second") = "first" +:+ Py.LF +:+ "second".
Proof.
  apply (tail_text_is_end_of_file ("first" +:+ Py.LF +:+ "second")). vm_compute. lia.
Defined.

Section DashboardMore.
Context {rt : Runtime}.

(** X8: when one of the two logs cannot be read, the log pane shows the error
    message, also when the bot log itself had just been read, and the audit
    pane keeps what it showed. *)
Theorem refresh_logs_read_error (bot_log audit_log : MainGui.text_file) (e : exn)
    (d : MainGui.dashboard) :
  bot_log = MainGui.Unreadable e
  \/ ((forall e', bot_log <> MainGui.Unreadable e') /\ audit_log = MainGui.Unreadable e) ->
  MainGui.refresh_logs bot_log audit_log d =
    {| MainGui.logs_text := "Error reading logs: " +:+ str_exn e;
       MainGui.audit_text := MainGui.audit_text d |}.
Proof.
  intros [->|[Hb ->]]; [reflexivity|].
  destruct bot_log as [|e'|content]; try reflexivity.
  by destruct (Hb e').
Qed.

(** X9: refreshing again while the files have not changed changes nothing, and
    with neither file present a refresh leaves both panes as they are. *)
Theorem refresh_logs_idempotent (bot_log audit_log : MainGui.text_file)
    (d : MainGui.dashboard) :
  MainGui.refresh_logs bot_log audit_log (MainGui.refresh_logs bot_log audit_log d)
    = MainGui.refresh_logs bot_log audit_log d
  /\ MainGui.refresh_logs MainGui.NoFile MainGui.NoFile d = d.
Proof.
  split; [|by destruct d].
  destruct bot_log, audit_log, d; reflexivity.
Qed.

End DashboardMore.

Lemma refresh_logs_read_error_witness :
  MainGui.refresh_logs (rt := tagging_runtime)
    (MainGui.Text ("agent started" +:+ Py.LF))
    (MainGui.Unreadable (OSError "Permission denied"))
    {| MainGui.logs_text := ""; MainGui.audit_text := "earlier audit lines" |}
  = {| MainGui.logs_text := "Error reading logs: <exception>";
       MainGui.audit_text := "earlier audit lines" |}.
Proof.
  apply (refresh_logs_read_error (rt := tagging_runtime)
           (MainGui.Text ("agent started" +:+ Py.LF))
           (MainGui.Unreadable (OSError "Permission denied"))
           (OSError "Permission denied")).
  right. split; [discriminate|reflexivity].
Defined.

(** ** The lines the runners emit *)

Lemma rstrip_last_char (s : string) (c : ascii) :
  last_char (Py.rstrip s) = Some c -> Py.isspace c = false.
Proof.
  induction s as [|x s IH]; simpl; [discriminate|].
  destruct (Py.rstrip s) as [|y r] eqn:E.
  - destruct (Py.isspace x) eqn:Hx; simpl; [discriminate|]. by intros [= <-].
  - intros H. apply IH. exact H.
Qed.

Lemma lstrip_first_char (s : string) (c : ascii) :
  first_char (Py.lstrip s) = Some c -> Py.isspace c = false.
Proof.
  induction s as [|x s IH]; simpl; [discriminate|].
  destruct (Py.isspace x) eqn:Hx; [exact IH|]. simpl. by intros [= <-].
Qed.

Lemma lstrip_last_char (s : string) (c : ascii) :
  last_char (Py.lstrip s) = Some c -> last_char s = Some c.
Proof.
  induction s as [|x s IH]; simpl; [discriminate|].
  destruct (Py.isspace x) eqn:Hx; [|done].
  intros H. specialize (IH H). destruct s; [discriminate|exact IH].
Qed.

Lemma newline_is_space : Py.isspace "010" = true.
Proof. reflexivity. Qed.

Section RunnerLines.
Context {rt : Runtime}.

(** X10: no line that a runner emits ends with whitespace, so none carries its
    line terminator; a line emitted by the runner of [main.py] does not
    begin with whitespace either. *)
Theorem emitted_lines_are_stripped (stopped_at : option nat) (p : PoidhGui.child)
    (q : MainGui.child) (text : string) (c : ascii) :
  (PoidhGui.Output text ∈ PoidhGui.run stopped_at (PoidhGui.Spawns p) ->
   last_char text = Some c -> Py.isspace c = false /\ c <> "010"%char)
  /\ (MainGui.Output text ∈ MainGui.run (MainGui.Spawns q) ->
      (last_char text = Some c -> Py.isspace c = false)
      /\ (first_char text = Some c -> Py.isspace c = false)).
Proof.
  split.
  - unfold PoidhGui.run. intros Hin Hc.
    apply elem_of_app in Hin as [Hin|Hin].
    + apply list_elem_of_fmap in Hin as [line [[= ->] _]].
      pose proof (rstrip_last_char _ _ Hc) as Hs. split; [done|].
      intros ->. by rewrite newline_is_space in Hs.
    + apply list_elem_of_singleton in Hin. discriminate.
  - unfold MainGui.run. intros Hin.
    apply elem_of_app in Hin as [Hin|Hin].
    + apply list_elem_of_fmap in Hin as [line [[= ->] _]]. unfold Py.strip. split.
      * intros Hc. apply lstrip_last_char in Hc. by apply rstrip_last_char in Hc.
      * apply lstrip_first_char.
    + exfalso. apply elem_of_app in Hin as [Hin|Hin].
      * destruct (negb (MainGui.returncode q =? 0)); [|by apply elem_of_nil in Hin].
        destruct (negb (String.eqb (MainGui.stderr q) "")); [|by apply elem_of_nil in Hin].
        apply list_elem_of_singleton in Hin. discriminate.
      * apply list_elem_of_singleton in Hin. discriminate.
Qed.

(** X11: when [stop] is requested after [n] lines have been read, the runner of
    [poidh_gui.py] emits at most [n] of the lines it would have emitted, in
    the same order from the first one, and still ends with the finished
    event carrying the exit code. *)
Theorem stopped_run_is_prefix (n : nat) (p : PoidhGui.child) :
  exists shown later,
    PoidhGui.run (Some n) (PoidhGui.Spawns p)
      = shown ++ [PoidhGui.Finished (PoidhGui.returncode p)]
    /\ (length shown <= n)%nat
    /\ PoidhGui.run None (PoidhGui.Spawns p)
       = shown ++ later ++ [PoidhGui.Finished (PoidhGui.returncode p)].
Proof.
  exists (map (fun line => PoidhGui.Output (Py.rstrip line))
            (take n (Py.readlines (PoidhGui.output p)))),
         (map (fun line => PoidhGui.Output (Py.rstrip line))
            (drop n (Py.readlines (PoidhGui.output p)))).
  assert (Forall (fun line => line <> "") (Py.readlines (PoidhGui.output p))) as Hne
    by apply lines_from_not_empty.
  split; [|split].
  - unfold PoidhGui.run. rewrite filter_not_empty; [done|]. by apply Forall_take.
  - rewrite length_map, length_take. lia.
  - rewrite poidh_run_all_lines, app_assoc, <- map_app. by rewrite take_drop.
Qed.

End RunnerLines.

Lemma emitted_lines_are_stripped_witness :
  Py.isspace "g" = false /\ "g"%char <> "010"%char.
Proof.
  apply (emitted_lines_are_stripped (rt := tagging_runtime) None
           {| PoidhGui.output := "building   " +:+ Py.LF; PoidhGui.returncode := 0 |}
           {| MainGui.stdout := ""; MainGui.stderr := ""; MainGui.returncode := 0 |}
           "building" "g").
  - vm_compute. apply list_elem_of_here.
  - reflexivity.
Defined.

(** ** The rows of the monitor tab, in general *)

Lemma length_string_of_list_ascii (l : list ascii) :
  String.length (string_of_list_ascii l) = length l.
Proof. induction l as [|c l IH]; simpl; [done|]. by rewrite IH. Qed.

Lemma length_list_ascii_of_string (s : string) :
  length (list_ascii_of_string s) = String.length s.
Proof. induction s as [|c s IH]; simpl; [done|]. by rewrite IH. Qed.

Lemma length_slice_from_any {A} (start : Z) (l : list A) :
  length (Py.slice_from start l) = (length l - Py.slice_start start (length l))%nat.
Proof. unfold Py.slice_from. by rewrite length_drop. Qed.

Lemma slice_start_20 (n : nat) : (n - Py.slice_start (-20) n <= 20)%nat.
Proof. rewrite (slice_start_last 20) by lia. lia. Qed.

Lemma slice_start_count (count n : nat) :
  (n - Py.slice_start (Z.of_nat count) n = n - count)%nat.
Proof. rewrite slice_start_positive by lia. lia. Qed.

(** The entries [refresh_logs] is about to add, together with the rows
    already shown, never make more than 20 rows unless more were shown. *)
Lemma fresh_entries_length (count : nat) (data : pyval) (new : list pyval) :
  PoidhGui.fresh_entries count data = inr new ->
  (length new + count <= Nat.max 20 count)%nat.
Proof.
  unfold PoidhGui.fresh_entries.
  destruct (Json.get data "entries" (PList [])) as [e|all]; [discriminate|].
  destruct all as [| | | |s|l|d]; simpl; try discriminate.
  - pose proof (slice_start_20 (String.length s)) as H20.
    unfold Py.str_slice_from. rewrite length_string_of_list_ascii, length_slice_from_any.
    rewrite length_list_ascii_of_string.
    destruct (Nat.ltb_spec count (String.length s - Py.slice_start (-20) (String.length s)));
      [|intros [= <-]; simpl; lia].
    simpl. intros [= <-]. rewrite length_map.
    unfold Py.str_slice_from. rewrite list_ascii_of_string_of_list_ascii.
    rewrite length_slice_from_any, list_ascii_of_string_of_list_ascii.
    rewrite length_slice_from_any, length_list_ascii_of_string.
    rewrite slice_start_count. lia.
  - pose proof (slice_start_20 (length l)) as H20.
    rewrite length_slice_from_any.
    destruct (Nat.ltb_spec count (length l - Py.slice_start (-20) (length l)));
      [|intros [= <-]; simpl; lia].
    simpl. intros [= <-].
    rewrite length_slice_from_any, length_slice_from_any, slice_start_count. lia.
Qed.

Section MonitorRows.
Context {rt : Runtime}.

Lemma add_items_grows (entries : list pyval) (rows : list PoidhGui.item) :
  rows `prefix_of` fst (PoidhGui.add_items entries rows)
  /\ (length (fst (PoidhGui.add_items entries rows)) <= length rows + length entries)%nat.
Proof.
  revert rows. induction entries as [|entry rest IH]; intros rows; simpl.
  - split; [done|lia].
  - destruct (PoidhGui.make_item entry) as [e|it]; simpl; [split; [done|lia]|].
    destruct (IH (rows ++ [it])) as [Hp Hl]. split.
    + by apply prefix_app_l in Hp.
    + rewrite length_app in Hl. simpl in Hl. lia.
Qed.

Lemma add_items_all (entries : list pyval) (rows new : list PoidhGui.item) :
  Forall2 (fun entry row => PoidhGui.make_item entry = inr row) entries new ->
  PoidhGui.add_items entries rows = (rows ++ new, None).
Proof.
  intros H. revert rows. induction H as [|entry row entries new Hrow _ IH]; intros rows; simpl.
  - by rewrite app_nil_r.
  - rewrite Hrow, IH. by rewrite <- app_assoc.
Qed.

(** X12: a refresh never removes or changes a row that is shown: the rows before
    it are the first rows after it, whatever the audit document holds. It
    never takes the list beyond 20 rows either: once 20 rows are shown,
    later entries of the document are not added. *)
Theorem refresh_logs_rows_grow_to_20 (f : json_file) (m : PoidhGui.monitor) :
  PoidhGui.log_list m `prefix_of` PoidhGui.log_list (PoidhGui.refresh_logs f m)
  /\ (length (PoidhGui.log_list (PoidhGui.refresh_logs f m))
      <= Nat.max 20 (length (PoidhGui.log_list m)))%nat
  /\ ((20 <= length (PoidhGui.log_list m))%nat ->
      PoidhGui.log_list (PoidhGui.refresh_logs f m) = PoidhGui.log_list m).
Proof.
  assert (PoidhGui.log_list m `prefix_of` PoidhGui.log_list (PoidhGui.refresh_logs f m)
          /\ (length (PoidhGui.log_list (PoidhGui.refresh_logs f m))
              <= Nat.max 20 (length (PoidhGui.log_list m)))%nat) as [Hp Hl].
  { unfold PoidhGui.refresh_logs. destruct f as [|e|e|data|e]; simpl; try (split; [done|lia]).
    destruct (PoidhGui.fresh_entries (length (PoidhGui.log_list m)) data) as [e|new] eqn:Hf;
      simpl; [split; [done|lia]|].
    apply fresh_entries_length in Hf.
    destruct (add_items_grows new (PoidhGui.log_list m)) as [Hp Hl].
    destruct (PoidhGui.add_items new (PoidhGui.log_list m)) as [rows [e|]]; simpl in *;
      (split; [done|lia]). }
  split; [done|]. split; [done|].
  intros H20. symmetry. apply prefix_length_eq; [done|]. lia.
Qed.

(** X13: while the document holds at most 20 entries, a refresh adds one row for
    each entry beyond those already shown, in the document's order, and
    shows the status as online. *)
Theorem refresh_logs_adds_new_rows (d : list (string * pyval)) (es : list pyval)
    (m : PoidhGui.monitor) (new : list PoidhGui.item) :
  entries_of d = PList es ->
  (length es <= 20)%nat ->
  Forall2 (fun entry row => PoidhGui.make_item entry = inr row)
    (drop (length (PoidhGui.log_list m)) es) new ->
  PoidhGui.refresh_logs (Holds (PDict d)) m =
    {| PoidhGui.status_label := "🟢 Online";
       PoidhGui.log_list := PoidhGui.log_list m ++ new |}.
Proof.
  intros Hd Hlen Hnew. unfold PoidhGui.refresh_logs, PoidhGui.fresh_entries. simpl.
  unfold entries_of in Hd. rewrite Hd. simpl.
  assert (Py.slice_from (-20) es = es) as ->.
  { rewrite (slice_from_last 20) by lia.
    replace (length es - Z.to_nat 20)%nat with 0%nat by lia. apply drop_0. }
  destruct (Nat.ltb_spec (length (PoidhGui.log_list m)) (length es)) as [Hlt|Hge].
  - simpl.
    assert (Py.slice_from (Z.of_nat (length (PoidhGui.log_list m))) es
            = drop (length (PoidhGui.log_list m)) es) as ->.
    { unfold Py.slice_from. rewrite slice_start_positive by lia.
      f_equal. lia. }
    by rewrite (add_items_all _ _ new Hnew).
  - rewrite drop_ge in Hnew by done. apply Forall2_nil_inv_l in Hnew as ->.
    simpl. by rewrite app_nil_r.
Qed.

End MonitorRows.

Lemma refresh_logs_rows_grow_to_20_witness :
  let m20 := {| PoidhGui.status_label := "🟢 Online";
                PoidhGui.log_list := replicate 20 {| PoidhGui.text := "[t] a";
                                                     PoidhGui.foreground := None |} |} in
  PoidhGui.log_list (PoidhGui.refresh_logs (rt := tagging_runtime) (numbered_document 25) m20)
  = PoidhGui.log_list m20.
Proof.
  apply (refresh_logs_rows_grow_to_20 (rt := tagging_runtime)). vm_compute. lia.
Defined.

Lemma refresh_logs_adds_new_rows_witness :
  PoidhGui.refresh_logs (rt := tagging_runtime)
    (Holds (PDict [("entries", PList three_entries)]))
    {| PoidhGui.status_label := "🔴 Offline";
       PoidhGui.log_list := [ {| PoidhGui.text := "[2024-05-01T10:00:00.000Z] BOUNTY_CREATED";
                                 PoidhGui.foreground := None |} ] |}
  = {| PoidhGui.status_label := "🟢 Online";
       PoidhGui.log_list :=
         [ {| PoidhGui.text := "[2024-05-01T10:00:00.000Z] BOUNTY_CREATED";
              PoidhGui.foreground := None |} ]
         ++ [ {| PoidhGui.text := "[2024-05-01T10:05:00.000Z] CLAIM_SUBMITTED";
                 PoidhGui.foreground := None |};
              {| PoidhGui.text := "[2024-05-01T10:09:00.000Z] WINNER_SUCCESS";
                 PoidhGui.foreground := Some PoidhGui.Green |} ] |}.
Proof.
  apply (refresh_logs_adds_new_rows (rt := tagging_runtime)
           [("entries", PList three_entries)] three_entries).
  - reflexivity.
  - vm_compute. lia.
  - repeat constructor.
Defined.

(** ** The setup script *)

Section SetupChecks.
Context {rt : Runtime}.

Lemma run_cmd_unchecked (cmd : string) (o : Setup.outcome) :
  snd (Setup.run_cmd cmd false o) = true <-> exists code err, o = Setup.Completed code err.
Proof.
  destruct o as [code err| |e]; simpl; split; try done; try by intros (? & ? & ?).
  intros _. by exists code, err.
Qed.

Lemma run_cmd_unchecked_silent (cmd : string) (o : Setup.outcome) :
  snd (Setup.run_cmd cmd false o) = true -> Setup.run_cmd cmd false o = ([], true).
Proof. by destruct o. Qed.

(** X14: [check_nodejs] does not look at exit codes: it passes exactly when both
    commands come to an end, also when they end with a failure status such
    as that of a shell that finds no node, and then prints its success line. *)
Theorem check_nodejs_ignores_exit_codes (h : Setup.host) :
  (snd (Setup.check_nodejs h) = true <->
   (exists code err, Setup.sh h "node --version" = Setup.Completed code err)
   /\ (exists code err, Setup.sh h "npm --version" = Setup.Completed code err))
  /\ (snd (Setup.check_nodejs h) = true ->
      Setup.check_nodejs h =
        (["📦 Checking Node.js..."; "✅ Node.js and npm installed"], true)).
Proof.
  unfold Setup.check_nodejs.
  pose proof (run_cmd_unchecked "node --version" (Setup.sh h "node --version")) as H1.
  pose proof (run_cmd_unchecked "npm --version" (Setup.sh h "npm --version")) as H2.
  pose proof (run_cmd_unchecked_silent "node --version" (Setup.sh h "node --version")) as S1.
  pose proof (run_cmd_unchecked_silent "npm --version" (Setup.sh h "npm --version")) as S2.
  destruct (Setup.run_cmd "node --version" false (Setup.sh h "node --version")) as [out1 [|]];
    destruct (Setup.run_cmd "npm --version" false (Setup.sh h "npm --version")) as [out2 [|]];
    simpl in *.
  - specialize (S1 eq_refl). specialize (S2 eq_refl).
    injection S1 as ->. injection S2 as ->. split; [|done].
    split; [intros _; split; [by apply H1|by apply H2]|done].
  - split; [|done]. split; [done|]. intros [_ Hc]. by apply H2.
  - split; [|done]. split; [done|]. intros [Hc _]. by apply H1.
  - split; [|done]. split; [done|]. intros [Hc _]. by apply H1.
Qed.

(** X15: [check_dependencies] does look at the exit code: it passes exactly when
    [node_modules] is there or [npm install] ends with status 0. *)
Theorem check_dependencies_passes_iff (h : Setup.host) :
  snd (Setup.check_dependencies h) = true <->
  Setup.has_node_modules h = true
  \/ exists err, Setup.sh h "npm install" = Setup.Completed 0 err.
Proof.
  unfold Setup.check_dependencies.
  destruct (Setup.has_node_modules h); simpl; [by split; [left|]|].
  destruct (Setup.sh h "npm install") as [code err| |e]; simpl.
  - destruct (Z.eqb_spec code 0) as [->|Hne]; simpl.
    + split; [intros _; right; by exists err|done].
    + split; [done|]. intros [?|[err' [= ? ?]]]; done.
  - split; [done|]. by intros [?|[? ?]].
  - split; [done|]. by intros [?|[? ?]].
Qed.

(** X16: [install_python_deps] passes exactly when the requirements file is there
    and the first [pip] run comes to an end, or else the second does, or
    else both the creation of the virtual environment and the [pip] run in
    it do; the exit status of none of them is looked at. *)
Theorem install_python_deps_passes_iff (h : Setup.host) :
  let ends cmd := exists code err, Setup.sh h cmd = Setup.Completed code err in
  snd (Setup.install_python_deps h) = true <->
  Setup.has_requirements h = true
  /\ (ends (Setup.pip_system h)
      \/ ends (Setup.pip_user h)
      \/ (ends Setup.make_venv /\ ends (Setup.pip_venv h))).
Proof.
  intros ends. unfold Setup.install_python_deps.
  destruct (Setup.has_requirements h); simpl; [|by split; [|intros [? _]]].
  pose proof (run_cmd_unchecked (Setup.pip_system h) (Setup.sh h (Setup.pip_system h))) as H1.
  pose proof (run_cmd_unchecked (Setup.pip_user h) (Setup.sh h (Setup.pip_user h))) as H2.
  pose proof (run_cmd_unchecked Setup.make_venv (Setup.sh h Setup.make_venv)) as H3.
  pose proof (run_cmd_unchecked (Setup.pip_venv h) (Setup.sh h (Setup.pip_venv h))) as H4.
  destruct (Setup.run_cmd (Setup.pip_system h) false _) as [out1 [|]]; simpl in *.
  { split; [intros _; split; [done|left; by apply H1]|done]. }
  destruct (Setup.run_cmd (Setup.pip_user h) false _) as [out2 [|]]; simpl in *.
  { split; [intros _; split; [done|right; left; by apply H2]|done]. }
  destruct (Setup.run_cmd Setup.make_venv false _) as [out3 [|]]; simpl in *.
  - destruct (Setup.run_cmd (Setup.pip_venv h) false _) as [out4 [|]]; simpl in *.
    + split; [intros _; split; [done|right; right; split; [by apply H3|by apply H4]]|done].
    + split; [done|]. intros [_ [Hc|[Hc|[_ Hc]]]];
        [by apply H1 in Hc|by apply H2 in Hc|by apply H4 in Hc].
  - split; [done|]. intros [_ [Hc|[Hc|[Hc _]]]];
      [by apply H1 in Hc|by apply H2 in Hc|by apply H3 in Hc].
Qed.

(** X17: [verify_environment] returns 0 exactly when all four checks pass and 1
    otherwise. It runs every check whatever the earlier ones gave: what
    [install_python_deps] prints is part of its output on every machine. *)
Theorem verify_environment_runs_all (h : Setup.host) :
  (snd (Setup.verify_environment h) = 0 <->
   snd (Setup.check_python h) = true /\ snd (Setup.check_nodejs h) = true
   /\ snd (Setup.check_dependencies h) = true /\ snd (Setup.install_python_deps h) = true)
  /\ (snd (Setup.verify_environment h) = 0 \/ snd (Setup.verify_environment h) = 1)
  /\ exists before after,
       fst (Setup.verify_environment h)
       = before ++ fst (Setup.install_python_deps h) ++ after.
Proof.
  unfold Setup.verify_environment.
  destruct (Setup.check_python h) as [out1 [|]];
    destruct (Setup.check_nodejs h) as [out2 [|]];
    destruct (Setup.check_dependencies h) as [out3 [|]];
    destruct (Setup.install_python_deps h) as [out4 [|]]; simpl;
    (split; [split; [try done; by intros [= ?]|try done; by intros (? & ? & ? & ?)]|]);
    (split; [first [by left|by right]|]);
    eexists ((Py.LF +:+ "🔍 Verifying environment...") :: out1 ++ out2 ++ out3), _;
    cbn [app]; f_equal; rewrite <- ?app_assoc; do 3 f_equal; reflexivity.
Qed.

End SetupChecks.

Lemma check_nodejs_ignores_exit_codes_witness :
  Setup.check_nodejs (rt := tagging_runtime)
    {| Setup.sh := fun _ => Setup.Completed 127 "sh: 1: node: not found";
       Setup.version := (3, 11, 4); Setup.has_node_modules := false;
       Setup.req_file := "gui/requirements.txt"; Setup.has_requirements := true |}
  = (["📦 Checking Node.js..."; "✅ Node.js and npm installed"], true).
Proof.
  apply (check_nodejs_ignores_exit_codes (rt := tagging_runtime)). reflexivity.
Defined.

(** ** Saving the configuration from the window of main.py *)

Lemma no_newline_app (a b : string) :
  no_newline (a +:+ b) = no_newline a && no_newline b.
Proof.
  induction a as [|c a IH]; [done|]. rewrite append_cons. simpl.
  rewrite IH. by rewrite andb_assoc.
Qed.

Lemma lines_from_one (cur s : string) :
  no_newline s = true -> Py.lines_from cur (s +:+ Py.LF) = [cur +:+ s +:+ Py.LF].
Proof.
  revert cur. induction s as [|c s IH]; intros cur; [done|].
  rewrite append_cons. simpl. intros [Hc Hs]%andb_prop.
  destruct (Ascii.eqb c "010"); [discriminate|].
  rewrite IH by done. by rewrite append_assoc.
Qed.

Lemma env_text_cons (k v : string) (config : list (string * string)) :
  MainGui.env_text ((k, v) :: config) =
    if negb (String.eqb v "")
    then (k +:+ "=" +:+ v) +:+ Py.LF +:+ MainGui.env_text config
    else MainGui.env_text config.
Proof.
  unfold MainGui.env_text. cbn [List.filter snd].
  destruct (negb (String.eqb v "")); [|reflexivity].
  cbn [map fst snd]. rewrite concat_empty_cons. by rewrite !append_assoc.
Qed.

Lemma readlines_env_text (config : list (string * string)) :
  Forall (fun kv => no_newline (fst kv) && no_newline (snd kv) = true) config ->
  Py.readlines (MainGui.env_text config) =
    map (fun kv => fst kv +:+ "=" +:+ snd kv +:+ Py.LF)
        (List.filter (fun kv => negb (String.eqb (snd kv) "")) config).
Proof.
  induction 1 as [|[k v] config Hkv _ IH]; [done|].
  rewrite env_text_cons. cbn [List.filter snd].
  destruct (negb (String.eqb v "")); [|exact IH].
  rewrite readlines_app, IH. cbn [map fst snd]. unfold Py.readlines at 1.
  rewrite lines_from_one.
  - rewrite append_nil_l. by rewrite !append_assoc.
  - cbn [fst snd] in Hkv. apply andb_prop in Hkv as [Hk Hv].
    rewrite !no_newline_app, Hk, Hv. reflexivity.
Qed.

(** X18: [ConfigManager.save_config] writes the file anew: one line [key=value]
    for each entry whose value is not empty, in the order of the
    dictionary, and no line for an entry with an empty value; what the file
    held before does not appear. When the file cannot be opened it is left
    as it was and the result is [False]. *)
Theorem save_config_lines (config : list (string * string)) (file : option string)
    (e : exn) :
  Forall (fun kv => no_newline (fst kv) && no_newline (snd kv) = true) config ->
  (exists text,
      MainGui.save_config config None file = (Some text, true)
      /\ Py.readlines text =
           map (fun kv => fst kv +:+ "=" +:+ snd kv +:+ Py.LF)
               (List.filter (fun kv => negb (String.eqb (snd kv) "")) config))
  /\ MainGui.save_config config (Some e) file = (file, false).
Proof.
  intros Hnl. split; [|reflexivity].
  exists (MainGui.env_text config). split; [reflexivity|]. by apply readlines_env_text.
Qed.

Lemma save_config_lines_witness :
  exists text,
    MainGui.save_config [("LOG_LEVEL", "info"); ("OPENAI_API_KEY", ""); ("DEMO_MODE", "false")]
      None (Some ("BOT_PRIVATE_KEY=0xabc" +:+ Py.LF)) = (Some text, true)
    /\ Py.readlines text =
         map (fun kv => fst kv +:+ "=" +:+ snd kv +:+ Py.LF)
             (List.filter (fun kv => negb (String.eqb (snd kv) ""))
                [("LOG_LEVEL", "info"); ("OPENAI_API_KEY", ""); ("DEMO_MODE", "false")]).
Proof.
  apply (save_config_lines
           [("LOG_LEVEL", "info"); ("OPENAI_API_KEY", ""); ("DEMO_MODE", "false")]
           (Some ("BOT_PRIVATE_KEY=0xabc" +:+ Py.LF)) (OSError "")).
  repeat constructor.
Defined.

Section ConfigTabSave.
Context {rt : Runtime}.

(** X19: saving from the configuration tab of [main.py] leaves a file that holds
    lines for the eleven settings of the form only: no line of it sets
    [BOT_PRIVATE_KEY], whatever the file held before. *)
Theorem config_tab_save_drops_wallet_key (f : MainGui.config_form) (file : option string) :
  form_single_line f ->
  exists text,
    MainGui.config_tab_save f None file = (Some text, MainGui.SavedBox)
    /\ (length (Py.readlines text) <= 11)%nat
    /\ forall line, line ∈ Py.readlines text -> String.prefix "BOT_PRIVATE_KEY=" line = false.
Proof.
  intros Hnl. exists (MainGui.env_text (MainGui.form_config f)).
  split; [reflexivity|]. rewrite readlines_env_text by done. split.
  - rewrite length_map. etransitivity; [apply List.filter_length_le|]. reflexivity.
  - intros line Hin. apply list_elem_of_fmap in Hin as [[k v] [-> Hin]].
    apply list_elem_of_In, List.filter_In in Hin as [Hin _].
    unfold MainGui.form_config in Hin. simpl in Hin.
    repeat (destruct Hin as [[= <- <-]|Hin]; [reflexivity|]). contradiction.
Qed.

End ConfigTabSave.

Lemma config_tab_save_drops_wallet_key_witness :
  exists text,
    MainGui.config_tab_save (rt := tagging_runtime) default_form None
      (Some ("BOT_PRIVATE_KEY=0xabc" +:+ Py.LF)) = (Some text, MainGui.SavedBox)
    /\ (length (Py.readlines text) <= 11)%nat
    /\ forall line, line ∈ Py.readlines text -> String.prefix "BOT_PRIVATE_KEY=" line = false.
Proof.
  apply (config_tab_save_drops_wallet_key (rt := tagging_runtime) default_form).
  unfold form_single_line. repeat constructor.
Defined.

(** ** What the agent tab shows when a run is over *)

(** X20: whatever the operating system answered to the launch (the child could
    not be spawned, or it ran and exited with any code), the output pane
    holds, after the thread has run, the banner of the launch followed by
    one paragraph per signal, and its last paragraph is the one that says
    the process completed. *)
Theorem agent_tab_always_reports_completed {rt : Runtime} (cmd : list string)
    (s : MainGui.spawn) (w : MainGui.world) :
  let w' := MainGui.thread_runs (length (MainGui.threads w)) s (MainGui.run_npm_command cmd w) in
  MainGui.output_text (MainGui.tab w') =
    ["Running: " +:+ Py.join " " cmd +:+ "..." +:+ Py.LF]
    ++ map (fun ev => match ev with
                      | MainGui.Output text => text
                      | MainGui.Error text => "❌ Error: " +:+ text
                      | MainGui.Finished => Py.LF +:+ "✅ Process completed."
                      end) (MainGui.run s)
  /\ last (MainGui.output_text (MainGui.tab w')) = Some (Py.LF +:+ "✅ Process completed.").
Proof.
  intros w'.
  assert (MainGui.output_text (MainGui.tab w') =
          ["Running: " +:+ Py.join " " cmd +:+ "..." +:+ Py.LF]
          ++ map (fun ev => match ev with
                            | MainGui.Output text => text
                            | MainGui.Error text => "❌ Error: " +:+ text
                            | MainGui.Finished => Py.LF +:+ "✅ Process completed."
                            end) (MainGui.run s)) as Hout.
  { unfold w', MainGui.thread_runs.
    replace (MainGui.threads (MainGui.run_npm_command cmd w) !! length (MainGui.threads w))
      with (Some {| MainGui.command := cmd; MainGui.finished := false |})
      by (symmetry; by apply list_lookup_middle).
    cbn [MainGui.finished MainGui.tab]. by rewrite agent_output_foldl. }
  split; [exact Hout|]. rewrite Hout.
  destruct s as [e|q].
  - reflexivity.
  - unfold MainGui.run. rewrite !map_app. cbn [map]. by rewrite !app_assoc, last_snoc.
Qed.
